(** * Purchase-order extraction and fingerprint core

    A shallow embedding of [extractor_oc.py], [hash_oc.py] and the copy of
    the fingerprint routine in [sheets_uploader_oc.py].

    Modelling conventions.
    - A Python [str] is its UTF-8 byte string ([string] of [ascii]); the
      character classes used by [strip], [upper] and [isdigit] are the
      ASCII ones.
    - A float64 is [NaN], an infinity, or an exact decimal [m * 10^-e];
      arithmetic is exact and rounding is round-half-even on the exact
      value, so binary representation error, overflow, underflow and the
      sign of zero are outside the model.
    - A [pd.DataFrame] is a list of column names and a list of rows of
      cells; a cell is [None], a string or a float.
    - Logging is made explicit: every routine that logs at warning or
      error level returns the events next to its result. *)

From Stdlib Require Import ZArith List String Ascii Bool Lia Permutation.
Import ListNotations.
Open Scope string_scope.
Open Scope Z_scope.

(** ** Python string primitives *)

Definition isspace (c : ascii) : bool :=
  let n := nat_of_ascii c in
  ((9 <=? n) && (n <=? 13) || (28 <=? n) && (n <=? 32))%nat.

Definition is_digit (c : ascii) : bool :=
  let n := nat_of_ascii c in ((48 <=? n) && (n <=? 57))%nat.

Definition digit_val (c : ascii) : Z := Z.of_nat (nat_of_ascii c) - 48.

Definition upper_char (c : ascii) : ascii :=
  let n := nat_of_ascii c in
  if ((97 <=? n) && (n <=? 122))%nat then ascii_of_nat (n - 32) else c.

Definition lower_char (c : ascii) : ascii :=
  let n := nat_of_ascii c in
  if ((65 <=? n) && (n <=? 90))%nat then ascii_of_nat (n + 32) else c.

Fixpoint map_string (f : ascii -> ascii) (s : string) : string :=
  match s with
  | EmptyString => EmptyString
  | String c s' => String (f c) (map_string f s')
  end.

Definition upper : string -> string := map_string upper_char.
Definition lower : string -> string := map_string lower_char.

Fixpoint lstrip (s : string) : string :=
  match s with
  | EmptyString => EmptyString
  | String c s' => if isspace c then lstrip s' else s
  end.

Fixpoint rstrip (s : string) : string :=
  match s with
  | EmptyString => EmptyString
  | String c s' =>
      match rstrip s' with
      | EmptyString => if isspace c then EmptyString else String c EmptyString
      | r => String c r
      end
  end.

Definition strip (s : string) : string := rstrip (lstrip s).

(** [s.isdigit()]: non-empty and made of digits only. *)
Fixpoint all_digits (s : string) : bool :=
  match s with
  | EmptyString => true
  | String c s' => is_digit c && all_digits s'
  end.

Definition isdigit (s : string) : bool :=
  match s with EmptyString => false | _ => all_digits s end.

(** [s.replace(c, new)] for a one-character pattern, the only form the
    sources use. *)
Fixpoint replace (old : ascii) (new : string) (s : string) : string :=
  match s with
  | EmptyString => EmptyString
  | String c s' =>
      if Ascii.eqb c old then new ++ replace old new s'
      else String c (replace old new s')
  end.

(** [needle in s]. *)
Fixpoint contains (needle s : string) : bool :=
  prefix needle s ||
  match s with
  | EmptyString => false
  | String _ s' => contains needle s'
  end.

Fixpoint drop (n : nat) (s : string) : string :=
  match n, s with
  | O, _ => s
  | S n', String _ s' => drop n' s'
  | S _, EmptyString => EmptyString
  end.

(** [s.split(sep)[0]]: the text before the first occurrence of [sep]. *)
Fixpoint before (sep s : string) : string :=
  if prefix sep s then EmptyString
  else match s with
       | EmptyString => EmptyString
       | String c s' => String c (before sep s')
       end.

(** [s.split("\n")]. *)
Fixpoint split_lines_aux (cur : string) (s : string) : list string :=
  match s with
  | EmptyString => [cur]
  | String c s' =>
      if Ascii.eqb c "010"%char then cur :: split_lines_aux EmptyString s'
      else split_lines_aux (cur ++ String c EmptyString) s'
  end.

Definition split_lines (s : string) : list string := split_lines_aux EmptyString s.

(** [sep.join(parts)]. *)
Fixpoint join (sep : string) (parts : list string) : string :=
  match parts with
  | [] => EmptyString
  | [p] => p
  | p :: rest => p ++ sep ++ join sep rest
  end.

Definition str_in (s : string) (l : list string) : bool :=
  existsb (String.eqb s) l.

(** ** Floats *)

Inductive float : Type :=
| NaN
| Inf (neg : bool)
| Fin (m : Z) (e : nat).   (* the decimal [m * 10^-e] *)

Definition pow10 (n : nat) : Z := 10 ^ Z.of_nat n.

(** Decimals are kept without trailing fractional zeros, so that equal
    values are equal terms. *)
Fixpoint norm (m : Z) (e : nat) : float :=
  match e with
  | O => Fin m 0
  | S e' => if m mod 10 =? 0 then norm (m / 10) e' else Fin m e
  end.

Definition of_Z (z : Z) : float := Fin z 0.

Definition isnan (x : float) : bool :=
  match x with NaN => true | _ => false end.

Definition fneg (x : float) : float :=
  match x with
  | NaN => NaN
  | Inf b => Inf (negb b)
  | Fin m e => Fin (- m) e
  end.

Definition fadd (x y : float) : float :=
  match x, y with
  | NaN, _ | _, NaN => NaN
  | Inf a, Inf b => if Bool.eqb a b then Inf a else NaN
  | Inf a, Fin _ _ | Fin _ _, Inf a => Inf a
  | Fin a e1, Fin b e2 =>
      norm (a * pow10 (e2 - e1) + b * pow10 (e1 - e2)) (Nat.max e1 e2)
  end.

Definition fsub (x y : float) : float := fadd x (fneg y).

Definition fmul (x y : float) : float :=
  match x, y with
  | NaN, _ | _, NaN => NaN
  | Inf a, Inf b => Inf (xorb a b)
  | Inf a, Fin m _ | Fin m _, Inf a =>
      if m =? 0 then NaN else Inf (xorb a (m <? 0))
  | Fin a e1, Fin b e2 => norm (a * b) (e1 + e2)
  end.

(** [x / 100], the only division in the sources. *)
Definition fdiv100 (x : float) : float :=
  match x with
  | Fin m e => norm m (e + 2)
  | _ => x
  end.

(** The integer nearest to [m * 10^-e * 10^n], ties to even. *)
Definition scaled_round (n : nat) (m : Z) (e : nat) : Z :=
  if (e <=? n)%nat then m * pow10 (n - e)
  else
    let d := pow10 (e - n) in
    let q := m / d in
    let r := m mod d in
    if 2 * r <? d then q
    else if d <? 2 * r then q + 1
    else if Z.even q then q else q + 1.

(** [x.round(n)] / [round(x, n)]. *)
Definition fround (n : nat) (x : float) : float :=
  match x with
  | Fin m e => norm (scaled_round n m e) n
  | _ => x
  end.

(** *** Reading numbers *)

Fixpoint read_digits (us : bool) (s : string) : string * string :=
  match s with
  | String c s' =>
      if is_digit c then
        let '(d, r) := read_digits us s' in (String c d, r)
      else if us && Ascii.eqb c "_" then
        match s' with
        | String c' _ =>
            if is_digit c' then read_digits us s' else (EmptyString, s)
        | EmptyString => (EmptyString, s)
        end
      else (EmptyString, s)
  | EmptyString => (EmptyString, s)
  end.

(** [digit (["_"] digit)*]; the underscores only when [us]. *)
Definition digitpart (us : bool) (s : string) : string * string :=
  match s with
  | String c _ => if is_digit c then read_digits us s else (EmptyString, s)
  | EmptyString => (EmptyString, s)
  end.

Fixpoint Z_of_digits (acc : Z) (s : string) : Z :=
  match s with
  | EmptyString => acc
  | String c s' => Z_of_digits (10 * acc + digit_val c) s'
  end.

Definition read_sign (s : string) : bool * string :=
  match s with
  | String c s' =>
      if Ascii.eqb c "-" then (true, s')
      else if Ascii.eqb c "+" then (false, s')
      else (false, s)
  | EmptyString => (false, s)
  end.

(** The exponent part [("e"|"E") [sign] digitpart], when present. *)
Definition read_exponent (us : bool) (s : string) : option (option Z * string) :=
  match s with
  | String c s' =>
      if Ascii.eqb (lower_char c) "e" then
        let '(neg, s1) := read_sign s' in
        match digitpart us s1 with
        | (EmptyString, _) => None
        | (d, r) =>
            let x := Z_of_digits 0 d in
            Some (Some (if neg then - x else x), r)
        end
      else Some (None, s)
  | EmptyString => Some (None, s)
  end.

(** An unsigned decimal literal that must fill the whole of [s]; the
    boolean tells whether it is written as an integer (no point, no
    exponent). *)
Definition read_number (us : bool) (s : string) : option (Z * nat * bool) :=
  let '(ip, r1) := digitpart us s in
  let '(fp, r2, dot) :=
    match r1 with
    | String c r =>
        if Ascii.eqb c "." then let '(fp, r2) := digitpart us r in (fp, r2, true)
        else (EmptyString, r1, false)
    | EmptyString => (EmptyString, r1, false)
    end in
  match ip, fp with
  | EmptyString, EmptyString => None
  | _, _ =>
      match read_exponent us r2 with
      | Some (x, EmptyString) =>
          let m := Z_of_digits 0 (ip ++ fp) in
          let e := String.length fp in
          match x with
          | None => Some (m, e, negb dot)
          | Some x =>
              if 0 <=? x then Some (m * pow10 (Z.to_nat x), e, false)
              else Some (m, (e + Z.to_nat (- x))%nat, false)
          end
      | _ => None
      end
  end.

Definition is_inf_word (s : string) : bool :=
  let l := lower s in String.eqb l "inf" || String.eqb l "infinity".

(** Python's [float(s)] on a string: [None] stands for [ValueError]. *)
Definition float_of_string (s : string) : option float :=
  let '(neg, body) := read_sign (strip s) in
  if is_inf_word body then Some (Inf neg)
  else if String.eqb (lower body) "nan" then Some NaN
  else
    match read_number true body with
    | Some (m, e, _) => Some (norm (if neg then - m else m) e)
    | None => None
    end.

(** ** Data frames *)

Inductive value : Type :=
| VNone                 (* None / missing *)
| VStr (s : string)
| VFloat (x : float).

Record DataFrame : Type := mkDF {
  columns : list string;
  rows : list (list value)
}.

(** [pd.DataFrame()] *)
Definition empty_frame : DataFrame := mkDF [] [].

(** [df.empty]: no rows or no columns. *)
Definition df_empty (df : DataFrame) : bool :=
  match columns df, rows df with
  | [], _ | _, [] => true
  | _, _ => false
  end.

(** [pd.isna(v)] *)
Definition isna (v : value) : bool :=
  match v with
  | VNone | VFloat NaN => true
  | _ => false
  end.

Fixpoint col_index (c : string) (cols : list string) : option nat :=
  match cols with
  | [] => None
  | c' :: rest =>
      if String.eqb c c' then Some O else option_map S (col_index c rest)
  end.

(** [row[c]] for a row laid out along [cols]. *)
Definition get (cols : list string) (r : list value) (c : string) : value :=
  match col_index c cols with
  | Some i => nth i r VNone
  | None => VNone
  end.

Fixpoint set_nth (i : nat) (v : value) (r : list value) : list value :=
  match i, r with
  | _, [] => []
  | O, _ :: r' => v :: r'
  | S i', x :: r' => x :: set_nth i' v r'
  end.

(** [df[cols]]: the named columns, in the order asked for. *)
Definition select (df : DataFrame) (cols : list string) : DataFrame :=
  mkDF cols (map (fun r => map (get (columns df) r) cols) (rows df)).

(** ** extractor_oc.py *)

Definition orden_header : string := "Itm".
Definition campos_requeridos : list string :=
  ["Codigo Producto"; "Descripcion"; "Cantidad"].
Definition decimales : nat := 3.

(** What the routines log at warning or error level. *)
Inductive event : Type :=
| WarnNoHeader (page_num : nat)       (* "No se encontro inicio de tabla" *)
| WarnNoProductos (page_num : nat)    (* "No se encontraron productos" *)
| ErrFaltanColumnas (page_num : nat)  (* "Faltan columnas requeridas" *)
| WarnNoTexto (page_num : nat)        (* "No se pudo extraer texto" *)
| WarnNoTabla (page_num : nat).       (* "No se pudo extraer tabla estructurada" *)

(** A cell of the raw grid. *)
Definition cell : Type := option string.

(** Truth value of a cell: neither [None] nor the empty string. *)
Definition truthy (c : cell) : bool :=
  match c with
  | Some (String _ _) => true
  | _ => false
  end.

(** [str(c)] *)
Definition str_cell (c : cell) : string :=
  match c with
  | Some s => s
  | None => "None"
  end.

Definition nonempty (s : string) : bool :=
  match s with EmptyString => false | _ => true end.

(** [len(row) > i and row[i]] *)
Definition present (row : list cell) (i : nat) : bool :=
  truthy (nth i row None).

(** [row[i]] as text, once [present row i] holds. *)
Definition at_ (row : list cell) (i : nat) : string :=
  str_cell (nth i row None).

(** [str(row[i]).strip() if len(row) > i and row[i] else dflt] *)
Definition texto_celda (row : list cell) (i : nat) (dflt : string) : string :=
  if present row i then strip (at_ row i) else dflt.

(** [str(row[i]).replace(",", "").strip() if len(row) > i and row[i] else "0"] *)
Definition numero_celda (row : list cell) (i : nat) : string :=
  if present row i then strip (replace "," "" (at_ row i)) else "0".

(** [try: x = float(s) if s else dflt  except: x = dflt] *)
Definition float_o (s : string) (dflt : float) : float :=
  if nonempty s then
    match float_of_string s with
    | Some x => x
    | None => dflt
    end
  else dflt.

(** The discount and tax percentages: 0.0 unless the cell is present and
    reads as a number once ["%"] and [","] are removed. *)
Definition porcentaje_celda (row : list cell) (i : nat) : float :=
  if present row i then
    float_o (strip (replace "," "" (replace "%" "" (at_ row i)))) (of_Z 0)
  else of_Z 0.

(** The list [current_product] of the source. *)
Record producto : Type := mkProducto {
  codigo : string;
  descripcion : string;
  cantidad : float;
  unidad : string;
  precio : float;
  descuento_pct : float;
  impuesto_pct : float;
  importe : float
}.

(** The first row whose first cell, stripped, is the header token. *)
Definition es_header (row : list cell) : bool :=
  match row with
  | [] => false
  | c :: _ => String.eqb (strip (str_cell c)) orden_header
  end.

Fixpoint buscar_header (raw_data : list (list cell)) : option (list (list cell)) :=
  match raw_data with
  | [] => None
  | row :: rest => if es_header row then Some rest else buscar_header rest
  end.

Definition itm_de (row : list cell) : string := texto_celda row 0 "".
Definition codigo_de (row : list cell) : string := texto_celda row 1 "".

(** [itm.isdigit() and codigo] *)
Definition es_fila_producto (row : list cell) : bool :=
  isdigit (itm_de row) && nonempty (codigo_de row).

(** The fields read from an item row. *)
Definition leer_producto (row : list cell) : producto :=
  let cantidad := float_o (numero_celda row 5) (of_Z 0) in
  let unidad := texto_celda row 6 "UN" in
  let unidad := if nonempty unidad then unidad else "UN" in
  let precio := float_o (numero_celda row 8) (of_Z 0) in
  mkProducto (codigo_de row) (texto_celda row 2 "") cantidad unidad precio
    (porcentaje_celda row 10) (porcentaje_celda row 11)
    (float_o (numero_celda row 13) (fmul cantidad precio)).

(** [not itm.isdigit() and len(row) > 2 and row[2] and str(row[2]).strip()] *)
Definition es_continuacion (row : list cell) : bool :=
  negb (isdigit (itm_de row)) && present row 2 && nonempty (strip (at_ row 2)).

(** [descripcion_extra.replace(".", "").replace(",", "").isdigit()] *)
Definition es_numerico (s : string) : bool :=
  isdigit (replace "," "" (replace "." "" s)).

Definition agregar_descripcion (p : producto) (extra : string) : producto :=
  mkProducto (codigo p) (descripcion p ++ " " ++ extra) (cantidad p) (unidad p)
    (precio p) (descuento_pct p) (impuesto_pct p) (importe p).

Definition palabras_fin : list string :=
  ["SUBTOTAL"; "TOTAL"; "IMPUESTO"; "IMpto"; "AVISO"; "FIRMA"].

(** [primera_celda = str(row[0] if row[0] else "").upper().strip()] and the
    keyword test on it. *)
Definition es_fin_tabla (row : list cell) : bool :=
  let primera_celda :=
    strip (upper (if present row 0 then at_ row 0 else "")) in
  existsb (fun keyword => contains keyword primera_celda) palabras_fin.

Definition cerrar (productos : list producto) (current : option producto)
  : list producto :=
  match current with
  | Some p => (productos ++ [p])%list
  | None => productos
  end.

(** The [if]/[elif] of the loop body: an item row closes the open item and
    opens a new one; otherwise a row with text in column 2 extends the
    description of the open item. *)
Definition paso_fila (row : list cell) (productos : list producto)
  (current : option producto) : list producto * option producto :=
  if es_fila_producto row then
    let nuevo := leer_producto row in
    (cerrar productos current,
     if nonempty (codigo nuevo) || nonempty (descripcion nuevo)
     then Some nuevo else current)
  else
    match current with
    | Some p =>
        if es_continuacion row then
          let extra := strip (at_ row 2) in
          if nonempty extra && negb (es_numerico extra)
          then (productos, Some (agregar_descripcion p extra))
          else (productos, current)
        else (productos, current)
    | None => (productos, current)
    end.

(** The row loop; the result is [productos] and [current_product] as they
    stand when the loop is left. *)
Fixpoint recorrer (filas : list (list cell)) (productos : list producto)
  (current : option producto) : list producto * option producto :=
  match filas with
  | [] => (productos, current)
  | row :: rest =>
      if negb (existsb truthy row) then recorrer rest productos current
      else
        let '(productos1, current1) := paso_fila row productos current in
        if es_fin_tabla row then (cerrar productos1 current1, None)
        else recorrer rest productos1 current1
  end.

(** The items collected from the rows below the header, the last open
    one included. *)
Definition productos_de (filas : list (list cell)) : list producto :=
  let '(productos, current) := recorrer filas [] None in
  cerrar productos current.

Definition columnas : list string :=
  ["Codigo Producto"; "Descripcion"; "Cantidad"; "Unidad"; "Precio";
   "Descuento %"; "Impuesto %"; "Importe"].

Definition numeric_cols : list string :=
  ["Cantidad"; "Precio"; "Descuento %"; "Impuesto %"; "Importe"].

(** One row of [pd.DataFrame(productos, columns=columnas)]. *)
Definition fila_base (p : producto) : list value :=
  [VStr (codigo p); VStr (descripcion p); VFloat (cantidad p);
   VStr (unidad p); VFloat (precio p); VFloat (descuento_pct p);
   VFloat (impuesto_pct p); VFloat (importe p)].

(** Column arithmetic, cell by cell; a missing cell is NaN. *)
Definition as_float (v : value) : float :=
  match v with
  | VFloat x => x
  | _ => NaN
  end.

Definition vmul (a b : value) : value := VFloat (fmul (as_float a) (as_float b)).
Definition vadd (a b : value) : value := VFloat (fadd (as_float a) (as_float b)).
Definition vsub (a b : value) : value := VFloat (fsub (as_float a) (as_float b)).
Definition vdiv100 (a : value) : value := VFloat (fdiv100 (as_float a)).
Definition vround (n : nat) (a : value) : value := VFloat (fround n (as_float a)).

(** [df[c] = f(df[c])], cell by cell. *)
Definition map_col (df : DataFrame) (c : string) (f : value -> value) : DataFrame :=
  match col_index c (columns df) with
  | Some i =>
      mkDF (columns df) (map (fun r => set_nth i (f (nth i r VNone)) r) (rows df))
  | None => df
  end.

(** [df[c] = <expression over the columns of df>], row by row: the column
    is overwritten when it exists and appended last otherwise. *)
Definition with_col (df : DataFrame) (c : string)
  (f : (string -> value) -> value) : DataFrame :=
  match col_index c (columns df) with
  | Some i =>
      mkDF (columns df)
        (map (fun r => set_nth i (f (get (columns df) r)) r) (rows df))
  | None =>
      mkDF (columns df ++ [c])%list
        (map (fun r => r ++ [f (get (columns df) r)])%list (rows df))
  end.

(** [df.dropna(subset=[c])] *)
Definition dropna (df : DataFrame) (c : string) : DataFrame :=
  mkDF (columns df)
    (filter (fun r => negb (isna (get (columns df) r c))) (rows df)).

(** The frame built from a non-empty [productos]: the numeric columns
    rounded (they hold floats, which [pd.to_numeric] leaves as they are),
    the three derived columns, and the rows without a total dropped. *)
Definition tabla_de (productos : list producto) : DataFrame :=
  let df := mkDF columnas (map fila_base productos) in
  let df :=
    fold_left (fun d c => map_col d c (vround decimales)) numeric_cols df in
  let df :=
    with_col df "Monto Descuento" (fun row =>
      vround decimales (vmul (row "Importe") (vdiv100 (row "Descuento %")))) in
  let df :=
    with_col df "Monto Impuesto" (fun row =>
      vround decimales (vmul (row "Importe") (vdiv100 (row "Impuesto %")))) in
  let df :=
    with_col df "Total por Producto" (fun row =>
      vround decimales
        (vsub (vadd (row "Importe") (row "Monto Impuesto"))
              (row "Monto Descuento"))) in
  dropna df "Total por Producto".

Definition procesar_tabla_productos (raw_data : list (list cell))
  (page_num : nat) : list event * DataFrame :=
  match buscar_header raw_data with
  | None => ([WarnNoHeader page_num], empty_frame)
  | Some filas =>
      match productos_de filas with
      | [] => ([WarnNoProductos page_num], empty_frame)
      | productos =>
          if forallb (fun col => str_in col columnas) campos_requeridos
          then ([], tabla_de productos)
          else ([ErrFaltanColumnas page_num], empty_frame)
      end
  end.

(** *** The patterns of [re.search]

    A backtracking matcher with Python's priorities: a quantifier takes
    as much as it can and gives back only when what follows fails. *)

Inductive re : Type :=
| Chr (p : ascii -> bool)
| Seq (a b : re)
| Opt (a : re)
| Star (a : re).

Fixpoint re_match {A : Type} (r : re) (s : string) (k : string -> option A)
  {struct r} : option A :=
  match r with
  | Chr p =>
      match s with
      | String c s' => if p c then k s' else None
      | EmptyString => None
      end
  | Seq a b => re_match a s (fun s1 => re_match b s1 k)
  | Opt a =>
      match re_match a s k with
      | Some x => Some x
      | None => k s
      end
  | Star a =>
      (fix loop (n : nat) (s : string) {struct n} : option A :=
         match n with
         | O => k s
         | S n' =>
             match
               re_match a s (fun s1 =>
                 if (String.length s1 <? String.length s)%nat
                 then loop n' s1 else None)
             with
             | Some x => Some x
             | None => k s
             end
         end) (String.length s) s
  end.

Fixpoint take (n : nat) (s : string) : string :=
  match n, s with
  | S n', String c s' => String c (take n' s')
  | _, _ => EmptyString
  end.

(** [re.search(before + "(" + group + ")", s).group(1)]: the leftmost
    match, [None] when there is none. *)
Fixpoint re_search (before_ group : re) (s : string) : option string :=
  match
    re_match before_ s (fun s1 =>
      re_match group s1 (fun s2 =>
        Some (take (String.length s1 - String.length s2) s1)))
  with
  | Some g => Some g
  | None =>
      match s with
      | EmptyString => None
      | String _ s' => re_search before_ group s'
      end
  end.

Definition chr (c : ascii) : re := Chr (Ascii.eqb c).
(** A letter under [re.IGNORECASE]. *)
Definition ichr (c : ascii) : re :=
  Chr (fun x => Ascii.eqb (lower_char x) (lower_char c)).
Definition ws : re := Chr isspace.       (* \s *)
Definition dig : re := Chr is_digit.     (* \d *)
Definition plus (a : re) : re := Seq a (Star a).

Fixpoint ilit (s : string) : re :=
  match s with
  | EmptyString => Opt (Chr (fun _ => false))
  | String c EmptyString => ichr c
  | String c s' => Seq (ichr c) (ilit s')
  end.

Fixpoint seqs (l : list re) : re :=
  match l with
  | [] => Opt (Chr (fun _ => false))
  | [a] => a
  | a :: l' => Seq a (seqs l')
  end.

(** [\d{1,3}(?:,\d{3})*(?:\.\d+)?] *)
Definition re_monto : re :=
  seqs [dig; Opt (Seq dig (Opt dig));
        Star (seqs [chr ","; dig; dig; dig]);
        Opt (Seq (chr ".") (plus dig))].

(** [Subtotal\s+] *)
Definition re_subtotal : re := Seq (ilit "Subtotal") (plus ws).
(** [Impto\.?\s+] *)
Definition re_impto : re := seqs [ilit "Impto"; Opt (chr "."); plus ws].
(** [T\s+O\s+T\s+A\s+L\s+] *)
Definition re_total_espaciado : re :=
  seqs [ichr "T"; plus ws; ichr "O"; plus ws; ichr "T"; plus ws;
        ichr "A"; plus ws; ichr "L"; plus ws].
(** [TOTAL\s+] *)
Definition re_total : re := Seq (ilit "TOTAL") (plus ws).

Record totales : Type := mkTotales {
  subtotal : float;
  impuesto : float;
  total : float
}.

(** [float(match.group(1).replace(",", ""))] *)
Definition monto (g : string) : option float :=
  float_of_string (replace "," "" g).

(** The three searches run in sequence inside one [try]; a conversion
    that raised would leave the remaining entries at their default. *)
Definition _extraer_totales_del_texto (texto : string) : totales :=
  let t0 := mkTotales (of_Z 0) (of_Z 0) (of_Z 0) in
  let paso3 (t : totales) : totales :=
    match re_search re_total_espaciado re_monto texto with
    | Some g =>
        match monto g with
        | Some x => mkTotales (subtotal t) (impuesto t) x
        | None => t
        end
    | None =>
        match re_search re_total re_monto texto with
        | Some g =>
            match monto g with
            | Some x => mkTotales (subtotal t) (impuesto t) x
            | None => t
            end
        | None => t
        end
    end in
  let paso2 (t : totales) : totales :=
    match re_search re_impto re_monto texto with
    | Some g =>
        match monto g with
        | Some x => paso3 (mkTotales (subtotal t) x (total t))
        | None => t
        end
    | None => paso3 t
    end in
  match re_search re_subtotal re_monto texto with
  | Some g =>
      match monto g with
      | Some x => paso2 (mkTotales x (impuesto t0) (total t0))
      | None => t0
      end
  | None => paso2 t0
  end.

(** [N[º°°]\s*Orden\s*[:]?\s*]; the two signs are the byte pairs C2 BA
    and C2 B0. *)
Definition re_numero_orden : re :=
  seqs [ichr "N"; chr "194";
        Chr (fun c => Ascii.eqb c "186" || Ascii.eqb c "176");
        Star ws; ilit "Orden"; Star ws; Opt (chr ":"); Star ws].
(** [Fecha\s+] and [\d{2}/\d{2}/\d{4}] *)
Definition re_fecha : re := Seq (ilit "Fecha") (plus ws).
Definition re_ddmmyyyy : re :=
  seqs [dig; dig; chr "/"; dig; dig; chr "/"; dig; dig; dig; dig].

Definition extraer_numero_y_fecha (texto : string)
  : option string * option string :=
  (re_search re_numero_orden (plus dig) texto,
   re_search re_fecha re_ddmmyyyy texto).

(** The dictionary [datos] of [extraer_datos_generales]. *)
Record datos : Type := mkDatos {
  proveedor : option string;
  direccion_proveedor : option string;
  rnc : option string;
  terminos : option string;
  moneda : string;
  codigo_suplidor : option string
}.

(** The line after the first one holding ["Solicitado a:"], up to the
    buyer's name. *)
Fixpoint buscar_proveedor (lineas : list string) : option string :=
  match lineas with
  | [] => None
  | linea :: rest =>
      if contains "Solicitado a:" linea then
        match rest with
        | siguiente :: _ =>
            Some (strip (before "SOLUCIONES QUIMICAS" (strip siguiente)))
        | [] => None
        end
      else buscar_proveedor rest
  end.

(** The first line holding ["AV."] or ["C/"]. *)
Fixpoint buscar_direccion (lineas : list string) : option string :=
  match lineas with
  | [] => None
  | linea :: rest =>
      if contains "AV." linea || contains "C/" linea then
        if contains "C/ Jatfres" linea
        then Some (strip (before "C/ Jatfres" linea))
        else Some (strip linea)
      else buscar_direccion rest
  end.

(** [str(fila[i]).strip() if fila[i] else None], kept as it was when the
    row is too short. *)
Definition dato_celda (fila : list cell) (i : nat) (old : option string)
  : option string :=
  if (i <? List.length fila)%nat then
    if present fila i then Some (strip (at_ fila i)) else None
  else old.

(** ["Código Suplidor"], with its accented letter as the bytes C3 B3. *)
Definition codigo_suplidor_acento : string :=
  "C" ++ String "195" (String "179" "digo Suplidor").

Definition clasificar_moneda (moneda_raw : string) (old : string) : string :=
  if contains "USD" (upper moneda_raw) || contains "US" (upper moneda_raw)
     || contains "Extranjera" moneda_raw
  then "USD"
  else if contains "DOP" (upper moneda_raw) then "DOP" else old.

(** The scan of the grid: the values sit two rows below their label. *)
Fixpoint buscar_en_tabla (tabla : list (list cell)) (d : datos) : datos :=
  match tabla with
  | [] => d
  | row :: rest =>
      match row with
      | [] => buscar_en_tabla rest d
      | c0 :: _ =>
          let d1 :=
            if contains codigo_suplidor_acento (str_cell c0)
               || contains "Codigo Suplidor" (str_cell c0)
            then
              match rest with
              | _ :: fila_datos :: _ =>
                  mkDatos (proveedor d) (direccion_proveedor d)
                    (dato_celda fila_datos 3 (rnc d))
                    (dato_celda fila_datos 9 (terminos d))
                    (moneda d)
                    (dato_celda fila_datos 0 (codigo_suplidor d))
              | _ => d
              end
            else d in
          let d2 :=
            if contains "Moneda" (str_cell c0) then
              match rest with
              | _ :: fila_moneda :: _ =>
                  if (3 <? List.length fila_moneda)%nat then
                    let moneda_raw :=
                      if present fila_moneda 3 then strip (at_ fila_moneda 3)
                      else "" in
                    mkDatos (proveedor d1) (direccion_proveedor d1) (rnc d1)
                      (terminos d1) (clasificar_moneda moneda_raw (moneda d1))
                      (codigo_suplidor d1)
                  else d1
              | _ => d1
              end
            else d1 in
          buscar_en_tabla rest d2
      end
  end.

Definition extraer_datos_generales (tabla_cruda : list (list cell))
  (texto : string) : datos :=
  let lineas := split_lines texto in
  buscar_en_tabla tabla_cruda
    (mkDatos (buscar_proveedor lineas) (buscar_direccion lineas)
       None None "USD" None).

(** What [procesar_pagina] asks of a pdfplumber page: its text, the table
    found by [find_table(...).extract()] ([None] when that call raises),
    and the tables of [extract_tables()]. *)
Record pagina : Type := mkPagina {
  extract_text : option string;
  find_table : option (list (list cell));
  extract_tables : list (list (list cell))
}.

Definition opt_value (o : option string) : value :=
  match o with
  | Some s => VStr s
  | None => VNone
  end.

Definition columnas_orden : list string :=
  ["Numero Orden"; "Fecha"; "Proveedor"; "Direccion Proveedor"; "RNC";
   "Terminos"; "Moneda"; "Codigo Suplidor";
   "Codigo Producto"; "Descripcion"; "Cantidad"; "Unidad";
   "Precio"; "Descuento %"; "Impuesto %"; "Importe";
   "Monto Descuento"; "Monto Impuesto"; "Total por Producto";
   "Subtotal"; "Total"].

(** [assign df c v] is [df[c] = v] for a scalar [v]. *)
Definition assign (df : DataFrame) (c : string) (v : value) : DataFrame :=
  with_col df c (fun _ => v).

(** The metadata and totals written onto every row of [df], and the
    columns put in their final order. *)
Definition ensamblar (df : DataFrame) (d : datos)
  (num_orden fecha : option string) (t : totales) : DataFrame :=
  let datos_generales :=
    [("Proveedor", opt_value (proveedor d));
     ("Direccion Proveedor", opt_value (direccion_proveedor d));
     ("RNC", opt_value (rnc d));
     ("Terminos", opt_value (terminos d));
     ("Moneda", VStr (moneda d));
     ("Codigo Suplidor", opt_value (codigo_suplidor d));
     ("Numero Orden", opt_value num_orden);
     ("Fecha", opt_value fecha)] in
  let df := fold_left (fun df kv => assign df (fst kv) (snd kv)) datos_generales df in
  let df := assign df "Subtotal" (VFloat (subtotal t)) in
  let df := assign df "Monto Impuesto" (VFloat (impuesto t)) in
  let df := assign df "Total" (VFloat (total t)) in
  let df :=
    fold_left (fun df col =>
                 if str_in col (columns df) then df else assign df col VNone)
      columnas_orden df in
  select df columnas_orden.

(** The grid of the page: the table found, or after a failure the first
    of [extract_tables()], or no rows at all. *)
Definition tabla_cruda_de (pdf_page : pagina) (page_num : nat)
  : list event * list (list cell) :=
  match find_table pdf_page with
  | Some t => ([], t)
  | None =>
      ([WarnNoTabla page_num],
       match extract_tables pdf_page with
       | t :: _ => t
       | [] => []
       end)
  end.

Definition procesar_pagina (pdf_page : pagina) (page_num : nat)
  : list event * DataFrame :=
  match extract_text pdf_page with
  | None | Some EmptyString => ([WarnNoTexto page_num], empty_frame)
  | Some texto =>
      let '(ev1, tabla_cruda) := tabla_cruda_de pdf_page page_num in
      let datos_generales := extraer_datos_generales tabla_cruda texto in
      let '(num_orden, fecha) := extraer_numero_y_fecha texto in
      let '(ev2, df) := procesar_tabla_productos tabla_cruda page_num in
      if df_empty df then ((ev1 ++ ev2)%list, empty_frame)
      else
        ((ev1 ++ ev2)%list,
         ensamblar df datos_generales num_orden fecha
           (_extraer_totales_del_texto texto))
  end.

(** ** hashlib.md5

    RFC 1321 on 32-bit words kept in [Z]; every addition is reduced modulo
    [2^32]. *)

Module MD5.

Definition w32 (x : Z) : Z := x mod 4294967296.

Definition rotl (x c : Z) : Z :=
  w32 (Z.lor (Z.shiftl x c) (Z.shiftr x (32 - c))).

Definition not32 (x : Z) : Z := Z.lxor x 4294967295.

Definition K : list Z :=
  [0xd76aa478; 0xe8c7b756; 0x242070db; 0xc1bdceee;
   0xf57c0faf; 0x4787c62a; 0xa8304613; 0xfd469501;
   0x698098d8; 0x8b44f7af; 0xffff5bb1; 0x895cd7be;
   0x6b901122; 0xfd987193; 0xa679438e; 0x49b40821;
   0xf61e2562; 0xc040b340; 0x265e5a51; 0xe9b6c7aa;
   0xd62f105d; 0x02441453; 0xd8a1e681; 0xe7d3fbc8;
   0x21e1cde6; 0xc33707d6; 0xf4d50d87; 0x455a14ed;
   0xa9e3e905; 0xfcefa3f8; 0x676f02d9; 0x8d2a4c8a;
   0xfffa3942; 0x8771f681; 0x6d9d6122; 0xfde5380c;
   0xa4beea44; 0x4bdecfa9; 0xf6bb4b60; 0xbebfbc70;
   0x289b7ec6; 0xeaa127fa; 0xd4ef3085; 0x04881d05;
   0xd9d4d039; 0xe6db99e5; 0x1fa27cf8; 0xc4ac5665;
   0xf4292244; 0x432aff97; 0xab9423a7; 0xfc93a039;
   0x655b59c3; 0x8f0ccc92; 0xffeff47d; 0x85845dd1;
   0x6fa87e4f; 0xfe2ce6e0; 0xa3014314; 0x4e0811a1;
   0xf7537e82; 0xbd3af235; 0x2ad7d2bb; 0xeb86d391].

Definition S : list Z :=
  [7; 12; 17; 22; 7; 12; 17; 22; 7; 12; 17; 22; 7; 12; 17; 22;
   5; 9; 14; 20; 5; 9; 14; 20; 5; 9; 14; 20; 5; 9; 14; 20;
   4; 11; 16; 23; 4; 11; 16; 23; 4; 11; 16; 23; 4; 11; 16; 23;
   6; 10; 15; 21; 6; 10; 15; 21; 6; 10; 15; 21; 6; 10; 15; 21].

Record state : Type := mkState { sA : Z; sB : Z; sC : Z; sD : Z }.

Definition init : state :=
  mkState 0x67452301 0xefcdab89 0x98badcfe 0x10325476.

(** Step [i] of the main loop on the sixteen words [M] of a block. *)
Definition step (M : list Z) (st : state) (i : nat) : state :=
  let '(mkState A B C D) := st in
  let zi := Z.of_nat i in
  let '(F, g) :=
    if (i <? 16)%nat then
      (Z.lor (Z.land B C) (Z.land (not32 B) D), zi)
    else if (i <? 32)%nat then
      (Z.lor (Z.land D B) (Z.land (not32 D) C), (5 * zi + 1) mod 16)
    else if (i <? 48)%nat then
      (Z.lxor (Z.lxor B C) D, (3 * zi + 5) mod 16)
    else
      (Z.lxor C (Z.lor B (not32 D)), (7 * zi) mod 16) in
  let F := w32 (F + A + nth i K 0 + nth (Z.to_nat g) M 0) in
  mkState D (w32 (B + rotl F (nth i S 0))) B C.

(** Little-endian words of a block of bytes. *)
Fixpoint words (bytes : list Z) : list Z :=
  match bytes with
  | b0 :: b1 :: b2 :: b3 :: rest =>
      (b0 + 256 * b1 + 65536 * b2 + 16777216 * b3) :: words rest
  | _ => []
  end.

Definition block (st : state) (bytes : list Z) : state :=
  let st' := fold_left (step (words bytes)) (seq 0 64) st in
  mkState (w32 (sA st + sA st')) (w32 (sB st + sB st'))
          (w32 (sC st + sC st')) (w32 (sD st + sD st')).

Fixpoint blocks (n : nat) (st : state) (bytes : list Z) : state :=
  match n with
  | O => st
  | Datatypes.S n' => blocks n' (block st (firstn 64 bytes)) (skipn 64 bytes)
  end.

Definition le_bytes (n : nat) (x : Z) : list Z :=
  map (fun i => (x / 256 ^ Z.of_nat i) mod 256) (seq 0 n).

(** The message followed by 0x80, zeros up to 56 modulo 64, and its
    length in bits on eight bytes. *)
Definition pad (msg : list Z) : list Z :=
  let len := Z.of_nat (List.length msg) in
  let zeros := Z.to_nat ((55 - len) mod 64) in
  (msg ++ [128] ++ repeat 0 zeros ++ le_bytes 8 (8 * len mod 2 ^ 64))%list.

Definition digest (msg : list Z) : list Z :=
  let p := pad msg in
  let st := blocks (List.length p / 64) init p in
  (le_bytes 4 (sA st) ++ le_bytes 4 (sB st)
     ++ le_bytes 4 (sC st) ++ le_bytes 4 (sD st))%list.

Definition hex_char (d : Z) : ascii :=
  ascii_of_nat (Z.to_nat (if d <? 10 then 48 + d else 87 + d)).

Fixpoint hex (bytes : list Z) : string :=
  match bytes with
  | [] => EmptyString
  | b :: rest => String (hex_char (b / 16)) (String (hex_char (b mod 16)) (hex rest))
  end.

Definition bytes_of (s : string) : list Z :=
  map (fun c => Z.of_nat (nat_of_ascii c)) (list_ascii_of_string s).

(** [hashlib.md5(s.encode("utf-8")).hexdigest()] *)
Definition hexdigest (s : string) : string := hex (digest (bytes_of s)).

End MD5.

(** ** Text of numbers *)

Definition digit_char (d : Z) : ascii := ascii_of_nat (48 + Z.to_nat d).

Fixpoint digits_aux (fuel : nat) (n : Z) (acc : string) : string :=
  match fuel with
  | O => acc
  | S fuel' =>
      let acc' := String (digit_char (n mod 10)) acc in
      if n <? 10 then acc' else digits_aux fuel' (n / 10) acc'
  end.

(** The decimal digits of [n >= 0]. *)
Definition str_nat (n : Z) : string :=
  digits_aux (S (Z.to_nat (Z.log2 n))) n EmptyString.

(** [str(z)] for an integer. *)
Definition str_int (z : Z) : string :=
  if z <? 0 then "-" ++ str_nat (- z) else str_nat z.

Fixpoint zeros (n : nat) : string :=
  match n with
  | O => EmptyString
  | S n' => String "0" (zeros n')
  end.

Definition zfill (w : nat) (s : string) : string :=
  zeros (w - String.length s) ++ s.

Fixpoint rstrip_zeros (s : string) : string :=
  match s with
  | EmptyString => EmptyString
  | String c s' =>
      match rstrip_zeros s' with
      | EmptyString =>
          if Ascii.eqb c "0" then EmptyString else String c EmptyString
      | r => String c r
      end
  end.

(** [str(x)] / [repr(x)] for a float: the shortest decimal, in positional
    notation when the decimal point falls within [-4 < decpt <= 16] and
    in exponent notation otherwise. *)
Definition repr_float (x : float) : string :=
  match x with
  | NaN => "nan"
  | Inf neg => if neg then "-inf" else "inf"
  | Fin m0 e0 =>
      match norm m0 e0 with
      | Fin m e =>
          let a := Z.abs m in
          let sign := if m <? 0 then "-" else "" in
          if a =? 0 then "0.0"
          else
            let ds := str_nat a in
            let decpt := Z.of_nat (String.length ds) - Z.of_nat e in
            if (-4 <? decpt) && (decpt <=? 16) then
              match e with
              | O => sign ++ ds ++ ".0"
              | _ =>
                  sign ++ str_nat (a / pow10 e) ++ "."
                    ++ zfill e (str_nat (a mod pow10 e))
              end
            else
              let sig := rstrip_zeros ds in
              let mant :=
                match sig with
                | String c EmptyString => sig
                | String c rest => String c ("." ++ rest)
                | EmptyString => sig
                end in
              let x := decpt - 1 in
              sign ++ mant ++ "e" ++ (if x <? 0 then "-" else "+")
                ++ zfill 2 (str_nat (Z.abs x))
      | _ => "nan"
      end
  end.

(** [f"{x:.2f}"] *)
Definition format_2f (x : float) : string :=
  match x with
  | NaN => "nan"
  | Inf neg => if neg then "-inf" else "inf"
  | Fin m e =>
      let q := scaled_round 2 (Z.abs m) e in
      (if m <? 0 then "-" else "") ++ str_nat (q / 100) ++ "."
        ++ zfill 2 (str_nat (q mod 100))
  end.

(** [str(v)] *)
Definition str_value (v : value) : string :=
  match v with
  | VNone => "None"
  | VStr s => s
  | VFloat x => repr_float x
  end.

(** [float(v)]; [None] stands for [TypeError] or [ValueError]. *)
Definition float_of_value (v : value) : option float :=
  match v with
  | VNone => None
  | VStr s => float_of_string s
  | VFloat x => Some x
  end.

(** *** pandas columns of text *)

(** What [pd.to_numeric(..., errors="coerce")] reads from one string: an
    integer when it is written as one, a float otherwise, NaN when it is
    not a number. *)
Inductive numeric : Type :=
| NInt (z : Z)
| NFloat (x : float).

Definition to_numeric (s : string) : numeric :=
  let '(neg, body) := read_sign (strip s) in
  if is_inf_word body then NFloat (Inf neg)
  else
    match read_number false body with
    | Some (m, _, true) => NInt (if neg then - m else m)
    | Some (m, e, false) => NFloat (norm (if neg then - m else m) e)
    | None => NFloat NaN
    end.

Definition es_entero (n : numeric) : bool :=
  match n with NInt _ => true | NFloat _ => false end.

(** One cell of [pd.to_numeric(col, errors="coerce").fillna(0).round(2).astype(str)];
    [enteros] tells that the column is an integer column (every entry
    was written as an integer), on which [fillna] and [round] change
    nothing. *)
Definition texto_numerico (enteros : bool) (n : numeric) : string :=
  match n with
  | NInt z =>
      if enteros then str_int z else repr_float (fround 2 (of_Z z))
  | NFloat x => repr_float (fround 2 (if isnan x then of_Z 0 else x))
  end.

Definition numerica_a_texto (col : list string) : list string :=
  let nums := map to_numeric col in
  map (texto_numerico (forallb es_entero nums)) nums.

(** [col.fillna("").astype(str).str.strip()], one cell. *)
Definition texto_limpio (v : value) : string :=
  strip (if isna v then "" else str_value v).

(** [df[c]] as a list of cells. *)
Definition columna (df : DataFrame) (c : string) : list value :=
  map (fun r => get (columns df) r c) (rows df).

(** The rows of a frame given by its columns. *)
Definition filas_de_columnas (n : nat) (cols : list (list string))
  : list (list string) :=
  map (fun i => map (fun col => nth i col EmptyString) cols) (seq 0 n).

Definition campo (cols : list string) (r : list string) (c : string) : string :=
  match col_index c cols with
  | Some i => nth i r EmptyString
  | None => EmptyString
  end.

(** [sort_values] on one column of strings, and [sorted] on a list of
    strings: ascending, rows with equal keys in their input order. *)
Fixpoint insert_by {A : Type} (key : A -> string) (x : A) (l : list A) : list A :=
  match l with
  | [] => [x]
  | y :: l' =>
      if String.leb (key x) (key y) then x :: l else y :: insert_by key x l'
  end.

Fixpoint sort_by {A : Type} (key : A -> string) (l : list A) : list A :=
  match l with
  | [] => []
  | x :: l' => insert_by key x (sort_by key l')
  end.

Definition sorted (l : list string) : list string := sort_by (fun s => s) l.

(** [df[c].iloc[0]] *)
Definition iloc0 (df : DataFrame) (c : string) : value :=
  match rows df with
  | r :: _ => get (columns df) r c
  | [] => VNone
  end.

Definition nl : string := String "010" EmptyString.

(** ** hash_oc.py *)

Module HashOc.

Definition meta_cols : list string :=
  ["Numero Orden"; "Fecha"; "Proveedor"; "Total"].

Definition columnas_producto : list string :=
  ["Codigo Producto"; "Descripcion"; "Cantidad"; "Unidad"; "Precio"; "Importe"].

Definition meta_str (df : DataFrame) : string :=
  join "|"
    (map (fun col =>
            if str_in col (columns df) then
              let val := iloc0 df col in
              if isna val then ""
              else if String.eqb col "Total" then
                match float_of_value val with
                | Some x => format_2f x
                | None => strip (str_value val)
                end
              else strip (str_value val)
            else "")
       meta_cols).

Definition cols_disponibles (df : DataFrame) : list string :=
  filter (fun c => str_in c (columns df)) columnas_producto.

(** [df_hash] once its columns are normalised: text stripped, and the
    three numeric columns read back as numbers rounded to 2 places. *)
Definition df_hash (df : DataFrame) : list (list string) :=
  filas_de_columnas (List.length (rows df))
    (map (fun col =>
            let textos := map texto_limpio (columna df col) in
            if str_in col ["Cantidad"; "Precio"; "Importe"]
            then numerica_a_texto (map (replace "," "") textos)
            else textos)
       (cols_disponibles df)).

Definition df_hash_ordenado (df : DataFrame) : list (list string) :=
  let cols := cols_disponibles df in
  if str_in "Codigo Producto" cols
  then sort_by (fun r => campo cols r "Codigo Producto") (df_hash df)
  else if str_in "Descripcion" cols
  then sort_by (fun r => campo cols r "Descripcion") (df_hash df)
  else df_hash df.

Definition productos_str (df : DataFrame) : string :=
  let cols := cols_disponibles df in
  join nl
    (map (fun row => join "|" (map (campo cols row) (sorted cols)))
       (df_hash_ordenado df)).

(** The text that is digested. *)
Definition contenido (df : DataFrame) : string :=
  match cols_disponibles df with
  | [] => meta_str df
  | _ => meta_str df ++ nl ++ productos_str df
  end.

Definition calcular_hash_oc (df : option DataFrame) : string :=
  match df with
  | None => zeros 12
  | Some df =>
      if df_empty df then zeros 12
      else take 12 (MD5.hexdigest (contenido df))
  end.

End HashOc.

(** ** sheets_uploader_oc.py: its own copy of the fingerprint *)

Module SheetsUploaderOc.

Definition calcular_hash_oc (df : option DataFrame) : string :=
  match df with
  | None => zeros 12
  | Some df =>
      if df_empty df then zeros 12
      else
        let meta_cols := ["Numero Orden"; "Fecha"; "Proveedor"; "Total"] in
        let meta_parts :=
          map (fun col =>
                 if str_in col (columns df) then
                   let val := iloc0 df col in
                   if isna val then ""
                   else if String.eqb col "Total" then
                     match float_of_value val with
                     | Some x => format_2f x
                     | None => strip (str_value val)
                     end
                   else strip (str_value val)
                 else "")
            meta_cols in
        let meta_str := join "|" meta_parts in
        let columnas_producto :=
          ["Codigo Producto"; "Descripcion"; "Cantidad"; "Unidad"; "Precio";
           "Importe"] in
        let cols_disponibles :=
          filter (fun c => str_in c (columns df)) columnas_producto in
        match cols_disponibles with
        | [] => take 12 (MD5.hexdigest meta_str)
        | _ =>
            let df_hash :=
              filas_de_columnas (List.length (rows df))
                (map (fun col =>
                        let textos := map texto_limpio (columna df col) in
                        if str_in col ["Cantidad"; "Precio"; "Importe"]
                        then numerica_a_texto (map (replace "," "") textos)
                        else textos)
                   cols_disponibles) in
            let df_hash :=
              if str_in "Codigo Producto" cols_disponibles then
                sort_by (fun r => campo cols_disponibles r "Codigo Producto") df_hash
              else if str_in "Descripcion" cols_disponibles then
                sort_by (fun r => campo cols_disponibles r "Descripcion") df_hash
              else df_hash in
            let lineas :=
              map (fun row =>
                     join "|" (map (campo cols_disponibles row)
                                 (sorted cols_disponibles)))
                df_hash in
            let productos_str := join nl lineas in
            let contenido := meta_str ++ nl ++ productos_str in
            take 12 (MD5.hexdigest contenido)
        end
  end.

End SheetsUploaderOc.

(** ** Vocabulary of the properties *)

(** The items of a grid once the scan is over: those of the rows below
    the header, none when there is no header. *)
Definition productos_finalizados (raw_data : list (list cell)) : list producto :=
  match buscar_header raw_data with
  | Some filas => productos_de filas
  | None => []
  end.

Definition monto_descuento (p : producto) : float :=
  fround 3 (fmul (fround 3 (importe p)) (fdiv100 (fround 3 (descuento_pct p)))).

Definition monto_impuesto (p : producto) : float :=
  fround 3 (fmul (fround 3 (importe p)) (fdiv100 (fround 3 (impuesto_pct p)))).

Definition total_por_producto (p : producto) : float :=
  fround 3 (fsub (fadd (fround 3 (importe p)) (monto_impuesto p))
                 (monto_descuento p)).

(** The eleven cells of the row that [tabla_de] builds for an item. *)
Definition fila_derivada (p : producto) : list value :=
  [VStr (codigo p); VStr (descripcion p); VFloat (fround 3 (cantidad p));
   VStr (unidad p); VFloat (fround 3 (precio p));
   VFloat (fround 3 (descuento_pct p)); VFloat (fround 3 (impuesto_pct p));
   VFloat (fround 3 (importe p)); VFloat (monto_descuento p);
   VFloat (monto_impuesto p); VFloat (total_por_producto p)].

Definition columnas_tabla : list string :=
  (columnas ++ ["Monto Descuento"; "Monto Impuesto"; "Total por Producto"])%list.

(** The twenty-one cells that [ensamblar] makes of a row [r] of the
    items frame: the metadata, the cells of [r] with the order's tax in
    the place of the line's, and the subtotal and total. *)
Definition fila_orden (d : datos) (num_orden fecha : option string)
  (t : totales) (r : list value) : list value :=
  ([opt_value num_orden; opt_value fecha; opt_value (proveedor d);
    opt_value (direccion_proveedor d); opt_value (rnc d);
    opt_value (terminos d); VStr (moneda d); opt_value (codigo_suplidor d)]
   ++ firstn 9 r
   ++ [VFloat (impuesto t); nth 10 r VNone;
       VFloat (subtotal t); VFloat (total t)])%list.

(** Whether [pd.to_numeric] makes column [col] of [df] an integer
    column. *)
Definition columna_entera (df : DataFrame) (col : string) : bool :=
  forallb es_entero
    (map to_numeric (map (replace "," "") (map texto_limpio (columna df col)))).

(** The text that stands in [df_hash] for a cell [v] of column [col]. *)
Definition celda_hash (df : DataFrame) (col : string) (v : value) : string :=
  if str_in col ["Cantidad"; "Precio"; "Importe"]
  then texto_numerico (columna_entera df col)
         (to_numeric (replace "," "" (texto_limpio v)))
  else texto_limpio v.


(** The row [r] with its cell of column [c] replaced by [v]. *)
Definition set_cell (cols : list string) (r : list value) (c : string)
  (v : value) : list value :=
  match col_index c cols with
  | Some i => set_nth i v r
  | None => r
  end.

(** ** The document driver *)

(** [pd.concat(frames, ignore_index=True)]: the columns of all the frames,
    each at its first occurrence, and the rows of the frames one after the
    other, a cell of a column that a frame lacks being missing. *)
Fixpoint union_columnas (seen : list string) (cols : list string) : list string :=
  match cols with
  | [] => seen
  | c :: rest =>
      if str_in c seen then union_columnas seen rest
      else union_columnas (seen ++ [c])%list rest
  end.

Definition concat (frames : list DataFrame) : DataFrame :=
  let cols := fold_left (fun seen df => union_columnas seen (columns df)) frames [] in
  mkDF cols
    (flat_map (fun df => map (fun r => map (get (columns df) r) cols) (rows df))
       frames).

(** What [procesar_pdf] logs at error level besides the events of its
    pages. *)
Inductive evento_pdf : Type :=
| EnPagina (e : event)
| ErrPdfVacio            (* "PDF vacio" *)
| ErrSinDatos            (* "No se extrajeron datos del PDF" *)
| ErrProcesando.         (* "Error procesando PDF" *)

(** The loop over the pages, from page index [i] on: the events, and the
    list [resultados] of the non-empty page frames. *)
Fixpoint procesar_paginas (i : nat) (pages : list pagina)
  : list event * list DataFrame :=
  match pages with
  | [] => ([], [])
  | p :: rest =>
      let '(ev, page_data) := procesar_pagina p i in
      let '(evs, resultados) := procesar_paginas (S i) rest in
      ((ev ++ evs)%list,
       if df_empty page_data then resultados else page_data :: resultados)
  end.

(** [procesar_pdf]; the argument is [pdf.pages], [None] when the file
    cannot be opened. *)
Definition procesar_pdf (pdf : option (list pagina)) : list evento_pdf * DataFrame :=
  match pdf with
  | None => ([ErrProcesando], empty_frame)
  | Some [] => ([ErrPdfVacio], empty_frame)
  | Some pages =>
      let '(evs, resultados) := procesar_paginas 0 pages in
      match resultados with
      | [] => ((map EnPagina evs ++ [ErrSinDatos])%list, empty_frame)
      | _ => (map EnPagina evs, concat resultados)
      end
  end.

(** ** sheets_uploader_oc.py: looking an order up in the sheet *)

(** [ya_existe_en_sheet]; [valores] is [ws.get_all_values()], [None] when
    the sheet cannot be opened or read. *)
Definition ya_existe_en_sheet (valores : option (list (list string)))
  (numero_orden : string) : bool :=
  match valores with
  | None => false
  | Some [] | Some [_] => false
  | Some (headers :: filas) =>
      match col_index "Numero Orden" headers with
      | None => false
      | Some idx =>
          let numero_limpio := upper (strip numero_orden) in
          existsb (fun row =>
                     (idx <? List.length row)%nat
                     && String.eqb (upper (strip (nth idx row EmptyString)))
                                   numero_limpio)
            filas
      end
  end.

(** The first row of [filas] that is long enough and holds the number. *)
Fixpoint buscar_fila (idx_numero idx_hash : nat) (numero_limpio : string)
  (filas : list (list string)) : option (list string) :=
  match filas with
  | [] => None
  | row :: rest =>
      if (Nat.max idx_numero idx_hash <? List.length row)%nat
         && String.eqb (upper (strip (nth idx_numero row EmptyString)))
                       numero_limpio
      then Some row
      else buscar_fila idx_numero idx_hash numero_limpio rest
  end.

Definition obtener_hash_orden_en_sheet (valores : option (list (list string)))
  (numero_orden : string) : option string :=
  match valores with
  | None => None
  | Some [] | Some [_] => None
  | Some (headers :: filas) =>
      match col_index "Numero Orden" headers, col_index "Hash_OC" headers with
      | Some idx_numero, Some idx_hash =>
          match buscar_fila idx_numero idx_hash (upper (strip numero_orden)) filas with
          | Some row =>
              let h := strip (nth idx_hash row EmptyString) in
              if nonempty h then Some h else None
          | None => None
          end
      | _, _ => None
      end
  end.

(** ** Vocabulary of the further properties *)

(** The texts that a pattern matches. *)
Inductive matches : re -> string -> Prop :=
| m_chr p c : p c = true -> matches (Chr p) (String c EmptyString)
| m_seq a b u v : matches a u -> matches b v -> matches (Seq a b) (u ++ v)
| m_opt_none a : matches (Opt a) EmptyString
| m_opt_some a u : matches a u -> matches (Opt a) u
| m_star_nil a : matches (Star a) EmptyString
| m_star_cons a u v : matches a u -> matches (Star a) v -> matches (Star a) (u ++ v).

Fixpoint forall_chars (p : ascii -> bool) (s : string) : bool :=
  match s with
  | EmptyString => true
  | String c s' => p c && forall_chars p s'
  end.

(** A lowercase hexadecimal digit. *)
Definition es_hex (c : ascii) : bool :=
  let n := nat_of_ascii c in
  ((48 <=? n) && (n <=? 57) || (97 <=? n) && (n <=? 102))%nat.




(** The rows of the pages [pages], numbered from [i], one page after the
    other. *)
Fixpoint filas_de_paginas (i : nat) (pages : list pagina) : list (list value) :=
  match pages with
  | [] => []
  | p :: rest =>
      (rows (snd (procesar_pagina p i)) ++ filas_de_paginas (S i) rest)%list
  end.

Definition es_error_de_documento (e : evento_pdf) : bool :=
  match e with
  | EnPagina _ => false
  | _ => true
  end.

(** [s] has one character for each class of [ps], in order. *)
Fixpoint coincide (ps : list (ascii -> bool)) (s : string) : bool :=
  match ps, s with
  | [], EmptyString => true
  | p :: ps', String c s' => p c && coincide ps' s'
  | _, _ => false
  end.

Definition es_barra (c : ascii) : bool := Ascii.eqb "/" c.

(** Two digits, a slash, two digits, a slash, four digits. *)
Definition es_fecha (s : string) : bool :=
  coincide [is_digit; is_digit; es_barra; is_digit; is_digit; es_barra;
            is_digit; is_digit; is_digit; is_digit] s.

(** Two cells that differ at most in the whitespace around a text. *)
Definition mismo_texto (v v' : value) : Prop :=
  match v, v' with
  | VStr s, VStr s' => strip s = strip s'
  | _, _ => v = v'
  end.

(** ** formatter_oc.py: reading the metadata of a record set *)

(** [s.lower().replace(" ", "_").replace("%", "pct")] *)
Definition normaliza (s : string) : string :=
  replace "%" "pct" (replace " " "_" (lower s)).

(** The first column whose normalised name is the key or contains it. *)
Fixpoint columna_de (key_norm : string) (cols : list string) : option string :=
  match cols with
  | [] => None
  | col :: rest =>
      let col_norm := normaliza col in
      if String.eqb col_norm key_norm || contains key_norm col_norm
      then Some col
      else columna_de key_norm rest
  end.

(** [str(val).strip()] when the value is present and that text is not
    empty, [default] otherwise. *)
Definition texto_o (default : string) (val : value) : string :=
  if negb (isna val) && nonempty (strip (str_value val))
  then strip (str_value val)
  else default.

(** [_extrae]; [None] stands for the [IndexError] of [iloc[0]] on a frame
    without rows. *)
Definition _extrae (df : DataFrame) (key : string) (default : string)
  : option string :=
  match columna_de (normaliza key) (columns df) with
  | Some col =>
      match rows df with
      | r :: _ => Some (texto_o default (get (columns df) r col))
      | [] => None
      end
  | None => Some default
  end.

(** The keys of [meta] in [exportar_orden_compra_a_pdf], each with the
    column of the record set that carries it. *)
Definition claves_meta : list (string * string) :=
  [("numero_orden", "Numero Orden"); ("fecha", "Fecha");
   ("proveedor", "Proveedor"); ("direccion_proveedor", "Direccion Proveedor");
   ("rnc", "RNC"); ("terminos", "Terminos"); ("moneda", "Moneda");
   ("codigo_suplidor", "Codigo Suplidor")].

(** * Properties *)

(** ** Decimals *)








(** ** The line-item parser *)




(** *** The frame that is returned *)

Lemma tabla_de_rows productos :
  rows (tabla_de productos)
  = filter (fun r => negb (isna (nth 10 r VNone))) (map fila_derivada productos).
Proof.
  unfold tabla_de. cbn -[fround fmul fdiv100 fadd fsub filter isna].
  rewrite !map_map. reflexivity.
Qed.

Lemma filter_map_comm {A B : Type} (f : A -> B) (p : B -> bool) (l : list A) :
  filter p (map f l) = map f (filter (fun x => p (f x)) l).
Proof.
  induction l as [|x l IH]; simpl; [reflexivity|].
  destruct (p (f x)); simpl; rewrite IH; reflexivity.
Qed.

(** The rows returned are those of the finalized items whose total is a
    number, in the order of the grid. *)
Lemma procesar_tabla_rows raw_data page_num :
  rows (snd (procesar_tabla_productos raw_data page_num))
  = map fila_derivada
      (filter (fun p => negb (isnan (total_por_producto p)))
         (productos_finalizados raw_data)).
Proof.
  unfold procesar_tabla_productos, productos_finalizados.
  destruct (buscar_header raw_data) as [filas|]; [|reflexivity].
  destruct (productos_de filas) as [|p ps]; [reflexivity|].
  change (forallb (fun col => str_in col columnas) campos_requeridos) with true.
  cbv iota. cbn [snd]. rewrite tabla_de_rows, filter_map_comm.
  apply f_equal. apply filter_ext. intros q. cbn [fila_derivada nth isna].
  destruct (total_por_producto q); reflexivity.
Qed.

Lemma procesar_tabla_columns raw_data page_num :
  rows (snd (procesar_tabla_productos raw_data page_num)) <> [] ->
  columns (snd (procesar_tabla_productos raw_data page_num)) = columnas_tabla.
Proof.
  unfold procesar_tabla_productos.
  destruct (buscar_header raw_data) as [filas|]; [|intros H; elim H; reflexivity].
  destruct (productos_de filas) as [|p ps]; [intros H; elim H; reflexivity|].
  reflexivity.
Qed.



(** C5. A header row starting with ["Itm"] followed by the item row
    1 / SKU1 / Widget A / quantity 10 / UN / price 5.00 / discount 10 /
    tax 0 / printed extended amount 45.00, whatever the other cells hold,
    gives exactly one row, with Importe 45.0 (the printed value, not
    10 x 5.00), Monto Descuento 4.5, Monto Impuesto 0.0 and Total por
    Producto 40.5. *)
Theorem printed_importe_scenario (encabezado : list cell)
  (c3 c4 c7 c9 c12 : cell) (page_num : nat) :
  procesar_tabla_productos
    [Some "Itm" :: encabezado;
     [Some "1"; Some "SKU1"; Some "Widget A"; c3; c4; Some "10"; Some "UN";
      c7; Some "5.00"; c9; Some "10"; Some "0"; c12; Some "45.00"]]
    page_num
  = ([],
     mkDF columnas_tabla
       [[VStr "SKU1"; VStr "Widget A"; VFloat (of_Z 10); VStr "UN";
         VFloat (of_Z 5); VFloat (of_Z 10); VFloat (of_Z 0);
         VFloat (of_Z 45); VFloat (Fin 45 1); VFloat (of_Z 0);
         VFloat (Fin 405 1)]]).
Proof. reflexivity. Qed.

(** *** Which items are kept *)

Lemma nonempty_ne s : nonempty s = true -> s <> "".
Proof. destruct s; [discriminate|intros _ E; discriminate]. Qed.







(** *** Footer rows *)

(** C7 at a failing input. The row [TOTAL | - | USD] is a terminator and
    not an item row, yet its column-2 text is appended to the description
    of the open item before the scan stops: the item "Widget A" is
    returned as "Widget A USD". *)
Lemma terminator_row_extends_description :
  let fin := [Some "TOTAL"; None; Some "USD"] in
  let raw_data :=
    [[Some "Itm"]; [Some "1"; Some "SKU1"; Some "Widget A"]; fin] in
  es_fin_tabla fin = true /\
  es_fila_producto fin = false /\
  map descripcion (productos_finalizados raw_data) = ["Widget A USD"] /\
  map (fun r => get columnas_tabla r "Descripcion")
    (rows (snd (procesar_tabla_productos raw_data 0)))
  = [VStr "Widget A USD"].
Proof. repeat split. Qed.

(** ** The record assembler *)

Lemma assign_eq cols rs c v :
  assign (mkDF cols rs) c v
  = match col_index c cols with
    | Some i => mkDF cols (map (fun r => set_nth i v r) rs)
    | None => mkDF (cols ++ [c])%list (map (fun r => r ++ [v])%list rs)
    end.
Proof. reflexivity. Qed.

Ltac paso_assign :=
  rewrite assign_eq;
  match goal with
  | |- context [col_index ?c ?l] =>
      let r := eval vm_compute in (col_index c l) in
      change (col_index c l) with r
  end;
  cbv iota beta; cbn [app].

Lemma asegurar_columnas_id (cols : list string) : forall df,
  forallb (fun c => str_in c (columns df)) cols = true ->
  fold_left
    (fun df col => if str_in col (columns df) then df else assign df col VNone)
    cols df = df.
Proof.
  induction cols as [|c cols IH]; intros df H; cbn [fold_left]; [reflexivity|].
  cbn [forallb] in H. apply andb_prop in H. destruct H as [H1 H2].
  rewrite H1. apply IH. exact H2.
Qed.

(** What [ensamblar] makes of the items frame, row by row. *)
Lemma ensamblar_rows ps d n f t :
  rows (ensamblar (mkDF columnas_tabla (map fila_derivada ps)) d n f t)
  = map (fun p => fila_orden d n f t (fila_derivada p)) ps.
Proof.
  unfold ensamblar, columnas_tabla, columnas. cbn [app fold_left fst snd].
  do 11 paso_assign.
  rewrite asegurar_columnas_id by reflexivity.
  unfold select. cbn [rows columns].
  rewrite !map_map. apply map_ext. intros p. reflexivity.
Qed.

Lemma procesar_tabla_forma raw_data page_num :
  let df := snd (procesar_tabla_productos raw_data page_num) in
  df_empty df = false ->
  exists ps, df = mkDF columnas_tabla (map fila_derivada ps).
Proof.
  intros df Hne.
  pose proof (procesar_tabla_rows raw_data page_num) as Hr.
  pose proof (procesar_tabla_columns raw_data page_num) as Hc.
  fold df in Hr, Hc.
  destruct df as [cs rs]. cbn [rows columns] in *.
  eexists. rewrite <- Hr. f_equal. apply Hc.
  intros ->. unfold df_empty in Hne. cbn in Hne. destruct cs; discriminate.
Qed.

(** C2, as the code has it. On a page with text, every row of
    [procesar_pagina] is the row of [procesar_tabla_productos] at the same
    position with the metadata in front and Subtotal and Total behind;
    each line-item column keeps its value, Monto Descuento and Total por
    Producto included, except Monto Impuesto, which holds on every row
    the tax of the order read from the page text (0.0 when the text has
    none). *)
Theorem record_assembly_broadcast (pdf_page : pagina) (page_num : nat)
  (texto : string) :
  extract_text pdf_page = Some texto -> texto <> "" ->
  let tabla_cruda := snd (tabla_cruda_de pdf_page page_num) in
  let items := snd (procesar_tabla_productos tabla_cruda page_num) in
  let d := extraer_datos_generales tabla_cruda texto in
  let nf := extraer_numero_y_fecha texto in
  let t := _extraer_totales_del_texto texto in
  let salida := snd (procesar_pagina pdf_page page_num) in
  rows salida = map (fila_orden d (fst nf) (snd nf) t) (rows items) /\
  Forall2 (fun r_in r_out =>
             (forall c, In c columnas_tabla -> c <> "Monto Impuesto" ->
                        get columnas_orden r_out c = get columnas_tabla r_in c) /\
             get columnas_orden r_out "Monto Impuesto" = VFloat (impuesto t))
    (rows items) (rows salida).
Proof.
  intros Htxt Hne tabla_cruda items d nf t salida.
  assert (Hrows : rows salida
                  = map (fila_orden d (fst nf) (snd nf) t) (rows items)).
  { subst salida. unfold procesar_pagina. rewrite Htxt.
    destruct texto as [|a s]; [congruence|].
    fold tabla_cruda.
    destruct (tabla_cruda_de pdf_page page_num) as [ev1 tc] eqn:Etc.
    cbn [snd] in tabla_cruda. subst tabla_cruda.
    fold d. destruct (extraer_numero_y_fecha (String a s)) as [n f] eqn:Enf.
    subst nf. cbn [fst snd].
    pose proof (procesar_tabla_forma tc page_num) as Hf.
    fold items in Hf. cbv zeta in Hf.
    destruct (procesar_tabla_productos tc page_num) as [ev2 df] eqn:Edf.
    cbn [snd] in items. subst items.
    destruct (df_empty df) eqn:Eemp.
    - cbn [snd rows empty_frame]. unfold df_empty in Eemp.
      destruct (rows df) eqn:Er; [reflexivity|].
      pose proof (procesar_tabla_columns tc page_num) as Hc.
      rewrite Edf in Hc. cbn [snd] in Hc. rewrite Er in Hc.
      rewrite Hc in Eemp by discriminate. discriminate.
    - destruct (Hf eq_refl) as [ps ->]. cbn [snd rows].
      fold t. rewrite ensamblar_rows, map_map. reflexivity. }
  split; [exact Hrows|].
  rewrite Hrows. subst items. rewrite procesar_tabla_rows.
  rewrite map_map.
  induction (filter (fun p => negb (isnan (total_por_producto p)))
               (productos_finalizados tabla_cruda)) as [|p ps IH];
    cbn [map]; constructor; [|exact IH].
  split; [|reflexivity].
  intros c Hc Hmi. cbn in Hc.
  decompose [or] Hc; subst; try reflexivity; try contradiction.
Qed.

Lemma record_assembly_broadcast_witness :
  let grid :=
    [[Some "Itm"];
     [Some "1"; Some "SKU1"; Some "Widget A"; None; None; Some "10";
      Some "UN"; None; Some "5.00"; None; Some "10"; Some "18"; None;
      Some "45.00"]] in
  rows (snd (procesar_pagina
               (mkPagina (Some "Subtotal 45.00 Impto. 2.50") (Some grid) []) 0))
  = [[VNone; VNone; VNone; VNone; VNone; VNone; VStr "USD"; VNone;
      VStr "SKU1"; VStr "Widget A"; VFloat (of_Z 10); VStr "UN";
      VFloat (of_Z 5); VFloat (of_Z 10); VFloat (of_Z 18); VFloat (of_Z 45);
      VFloat (Fin 45 1); VFloat (Fin 25 1); VFloat (Fin 486 1);
      VFloat (of_Z 45); VFloat (of_Z 45)]].
Proof.
  exact (proj1 (record_assembly_broadcast
                  (mkPagina (Some "Subtotal 45.00 Impto. 2.50")
                     (Some [[Some "Itm"];
                            [Some "1"; Some "SKU1"; Some "Widget A"; None; None;
                             Some "10"; Some "UN"; None; Some "5.00"; None;
                             Some "10"; Some "18"; None; Some "45.00"]]) [])
                  0 "Subtotal 45.00 Impto. 2.50" eq_refl
                  (fun E => match E with end))).
Defined.

(** C2, as it is worded, fails: for the item 10 x 5.00 with 18 % tax and
    printed amount 45.00 the parser computes Monto Impuesto 8.1, and the
    record of the page, whose text names no tax, carries 0.0 in that
    column. *)
Lemma record_assembly_counterexample :
  let grid :=
    [[Some "Itm"];
     [Some "1"; Some "SKU1"; Some "Widget A"; None; None; Some "10";
      Some "UN"; None; Some "5.00"; None; Some "10"; Some "18"; None;
      Some "45.00"]] in
  let pdf_page := mkPagina (Some "Subtotal 45.00") (Some grid) [] in
  map (fun r => get columnas_tabla r "Monto Impuesto")
    (rows (snd (procesar_tabla_productos grid 0)))
  = [VFloat (Fin 81 1)] /\
  map (fun r => get columnas_orden r "Monto Impuesto")
    (rows (snd (procesar_pagina pdf_page 0)))
  = [VFloat (of_Z 0)].
Proof. split; reflexivity. Qed.

(** ** The fingerprint *)

(** C10. The routine of [hash_oc.py] and its copy in
    [sheets_uploader_oc.py] return the same digest on every input, [None]
    and the empty frame included. *)
Theorem hash_copies_agree (df : option DataFrame) :
  HashOc.calcular_hash_oc df = SheetsUploaderOc.calcular_hash_oc df.
Proof.
  destruct df as [df|]; [|reflexivity].
  unfold HashOc.calcular_hash_oc, SheetsUploaderOc.calcular_hash_oc.
  destruct (df_empty df); [reflexivity|].
  unfold HashOc.contenido, HashOc.productos_str, HashOc.df_hash_ordenado,
    HashOc.df_hash, HashOc.meta_str.
  change (filter (fun c => str_in c (columns df))
            ["Codigo Producto"; "Descripcion"; "Cantidad"; "Unidad";
             "Precio"; "Importe"])
    with (HashOc.cols_disponibles df).
  destruct (HashOc.cols_disponibles df); reflexivity.
Qed.

(** *** Strings *)

Lemma append_assoc (a b c : string) : (a ++ b) ++ c = a ++ (b ++ c).
Proof.
  induction a as [|x a IH]; simpl; [reflexivity|]. rewrite IH. reflexivity.
Qed.

Lemma append_length (a b : string) :
  String.length (a ++ b) = (String.length a + String.length b)%nat.
Proof.
  induction a as [|x a IH]; simpl; [reflexivity|]. rewrite IH. reflexivity.
Qed.







(** *** Sorting on a key *)

Section SortBy.
Context {A : Type} (key : A -> string).







End SortBy.

(** *** Columns and rows of [df_hash] *)
















(** *** Writing one cell *)







(** The frame [df] and the frame [df'] that differs from it in the cell of
    column [c] of one row. *)
Section UnaCelda.
Variables (cols : list string) (rs1 rs2 : list (list value))
          (r : list value) (c : string) (v' : value).

Let r' := set_cell cols r c v'.
Let df := mkDF cols (rs1 ++ r :: rs2).
Let df' := mkDF cols (rs1 ++ r' :: rs2).





(** The rows of [df_hash], before and after. *)
Let F (d : DataFrame) (x : list value) : list string :=
  map (fun col => celda_hash d col (get cols x col))
    (HashOc.cols_disponibles df).





(** A numeric column of the digest. *)
Hypothesis Hnum : In c ["Cantidad"; "Precio"; "Importe"].
Hypothesis Hin : str_in c cols = true.
Hypothesis Hlen : List.length r = List.length cols.
Hypothesis Hflag : columna_entera df c = columna_entera df' c.








Let linea (x : list string) : string :=
  join "|" (map (campo (HashOc.cols_disponibles df) x)
              (sorted (HashOc.cols_disponibles df))).




End UnaCelda.





(** * Further properties *)

(** ** The shape of the digest *)

Lemma hex_length bytes : String.length (MD5.hex bytes) = (2 * List.length bytes)%nat.
Proof. induction bytes as [|b bytes IH]; simpl; [reflexivity|]. rewrite IH. lia. Qed.

Lemma digest_length msg : List.length (MD5.digest msg) = 16%nat.
Proof. unfold MD5.digest. rewrite !length_app. reflexivity. Qed.

Lemma take_length n s : (n <= String.length s)%nat -> String.length (take n s) = n.
Proof.
  revert s. induction n as [|n IH]; intros [|c s] H; simpl in *; try lia.
  rewrite IH by lia. reflexivity.
Qed.

Lemma forall_chars_take p n s :
  forall_chars p s = true -> forall_chars p (take n s) = true.
Proof.
  revert s. induction n as [|n IH]; intros [|c s]; simpl; try reflexivity.
  intros H. apply andb_prop in H. destruct H as [H1 H2].
  rewrite H1. apply IH. exact H2.
Qed.

Lemma hex_char_es_hex d : 0 <= d < 16 -> es_hex (MD5.hex_char d) = true.
Proof.
  intros H.
  assert (d = 0 \/ d = 1 \/ d = 2 \/ d = 3 \/ d = 4 \/ d = 5 \/ d = 6 \/ d = 7 \/
          d = 8 \/ d = 9 \/ d = 10 \/ d = 11 \/ d = 12 \/ d = 13 \/ d = 14 \/
          d = 15) as C by lia.
  decompose [or] C; subst; reflexivity.
Qed.

Lemma hex_es_hex bytes :
  Forall (fun b => 0 <= b < 256) bytes -> forall_chars es_hex (MD5.hex bytes) = true.
Proof.
  induction 1 as [|b bytes Hb _ IH]; simpl; [reflexivity|].
  rewrite !hex_char_es_hex, IH; [reflexivity| |].
  - apply Z.mod_pos_bound. lia.
  - split; [apply Z.div_pos; lia|apply Z.div_lt_upper_bound; lia].
Qed.

Lemma le_bytes_range n x : Forall (fun b => 0 <= b < 256) (MD5.le_bytes n x).
Proof.
  unfold MD5.le_bytes. apply Forall_forall. intros b Hb.
  apply in_map_iff in Hb. destruct Hb as (i & <- & _).
  apply Z.mod_pos_bound. lia.
Qed.

Lemma digest_range msg : Forall (fun b => 0 <= b < 256) (MD5.digest msg).
Proof. unfold MD5.digest. repeat (apply Forall_app; split); apply le_bytes_range. Qed.

(** X1. [calcular_hash_oc] always returns exactly 12 characters, each a
    lowercase hexadecimal digit: on a missing frame, on an empty frame and
    on every other frame. *)
Theorem digest_is_12_hex_digits (df : option DataFrame) :
  String.length (HashOc.calcular_hash_oc df) = 12%nat /\
  forall_chars es_hex (HashOc.calcular_hash_oc df) = true.
Proof.
  assert (H : forall s, String.length (take 12 (MD5.hexdigest s)) = 12%nat /\
                        forall_chars es_hex (take 12 (MD5.hexdigest s)) = true).
  { intros s. unfold MD5.hexdigest. split.
    - apply take_length. rewrite hex_length, digest_length. lia.
    - apply forall_chars_take, hex_es_hex, digest_range. }
  unfold HashOc.calcular_hash_oc.
  destruct df as [df|]; [|split; reflexivity].
  destruct (df_empty df); [split; reflexivity|]. apply H.
Qed.

(** ** The currency *)

Lemma clasificar_moneda_valores raw old :
  old = "USD" \/ old = "DOP" ->
  clasificar_moneda raw old = "USD" \/ clasificar_moneda raw old = "DOP".
Proof.
  intros H. unfold clasificar_moneda.
  destruct (contains "USD" (upper raw) || contains "US" (upper raw)
            || contains "Extranjera" raw); [left; reflexivity|].
  destruct (contains "DOP" (upper raw)); [right; reflexivity|exact H].
Qed.

Lemma buscar_en_tabla_moneda tabla : forall d,
  moneda d = "USD" \/ moneda d = "DOP" ->
  moneda (buscar_en_tabla tabla d) = "USD" \/ moneda (buscar_en_tabla tabla d) = "DOP".
Proof.
  induction tabla as [|row rest IH]; intros d H; cbn [buscar_en_tabla]; [exact H|].
  destruct row as [|c0 row]; [apply IH; exact H|].
  apply IH.
  match goal with
  | |- context [if contains "Moneda" _ then ?a else ?b] =>
      assert (H1 : moneda b = "USD" \/ moneda b = "DOP")
  end.
  { destruct (contains codigo_suplidor_acento (str_cell c0)
              || contains "Codigo Suplidor" (str_cell c0)); [|exact H].
    destruct rest as [|r1 [|r2 rest']]; exact H. }
  destruct (contains "Moneda" (str_cell c0)); [|exact H1].
  destruct rest as [|r1 [|r2 rest']]; try exact H1.
  destruct (3 <? List.length r2)%nat; [|exact H1].
  cbn [moneda]. apply clasificar_moneda_valores. exact H1.
Qed.

(** X2. Whatever the table and the text, the currency that
    [extraer_datos_generales] reports is "USD" or "DOP". *)
Theorem moneda_usd_o_dop (tabla_cruda : list (list cell)) (texto : string) :
  moneda (extraer_datos_generales tabla_cruda texto) = "USD" \/
  moneda (extraer_datos_generales tabla_cruda texto) = "DOP".
Proof.
  unfold extraer_datos_generales. apply buscar_en_tabla_moneda.
  left. reflexivity.
Qed.

(** ** The scan of the rows *)

(** A row that ends the table has text in its first cell. *)
Lemma es_fin_tabla_truthy row : es_fin_tabla row = true -> existsb truthy row = true.
Proof.
  unfold es_fin_tabla, present.
  destruct row as [|c row]; [discriminate|].
  cbn [nth existsb]. destruct (truthy c); [reflexivity|discriminate].
Qed.


Lemma blank_no_header row : existsb truthy row = false -> es_header row = false.
Proof.
  destruct row as [|c row]; [reflexivity|]. cbn [existsb es_header].
  destruct c as [[|a s]|]; simpl; try discriminate; reflexivity.
Qed.

(** Nothing below a row that ends the table is read. *)
Lemma recorrer_fin fin resto filas : forall productos current,
  es_fin_tabla fin = true ->
  recorrer (filas ++ fin :: resto) productos current
  = recorrer (filas ++ [fin]) productos current.
Proof.
  intros productos current Hfin. revert productos current.
  induction filas as [|row filas IH]; intros productos current; cbn [app recorrer].
  - rewrite (es_fin_tabla_truthy _ Hfin), Hfin. cbn [negb].
    destruct (paso_fila fin productos current). reflexivity.
  - destruct (negb (existsb truthy row)); [apply IH|].
    destruct (paso_fila row productos current) as [p1 c1].
    destruct (es_fin_tabla row); [reflexivity|apply IH].
Qed.

Lemma buscar_header_app antes encabezado filas :
  buscar_header antes = None -> es_header encabezado = true ->
  buscar_header (antes ++ encabezado :: filas) = Some filas.
Proof.
  intros Ha He. induction antes as [|row antes IH]; cbn [app buscar_header].
  - rewrite He. reflexivity.
  - cbn [buscar_header] in Ha. destruct (es_header row); [discriminate|].
    apply IH. exact Ha.
Qed.

(** X3. The scan of [procesar_tabla_productos] stops at the first row
    that ends the table: the rows after it change neither the frame nor
    the log. *)
Theorem rows_below_footer_ignored
  (antes : list (list cell)) (encabezado : list cell)
  (filas : list (list cell)) (fin : list cell) (resto : list (list cell))
  (page_num : nat) :
  buscar_header antes = None -> es_header encabezado = true ->
  es_fin_tabla fin = true ->
  procesar_tabla_productos (antes ++ encabezado :: filas ++ fin :: resto) page_num
  = procesar_tabla_productos (antes ++ encabezado :: filas ++ [fin]) page_num.
Proof.
  intros Ha He Hfin. unfold procesar_tabla_productos.
  rewrite !(buscar_header_app antes encabezado _ Ha He).
  unfold productos_de. rewrite (recorrer_fin fin resto filas [] None Hfin).
  reflexivity.
Qed.

Lemma rows_below_footer_ignored_witness :
  procesar_tabla_productos
    [[Some "Orden"]; [Some "Itm"]; [Some "1"; Some "SKU1"; Some "Widget A"];
     [Some "Subtotal"]; [Some "2"; Some "SKU2"; Some "Widget B"]] 0
  = procesar_tabla_productos
      [[Some "Orden"]; [Some "Itm"]; [Some "1"; Some "SKU1"; Some "Widget A"];
       [Some "Subtotal"]] 0.
Proof.
  exact (rows_below_footer_ignored [[Some "Orden"]] [Some "Itm"]
           [[Some "1"; Some "SKU1"; Some "Widget A"]] [Some "Subtotal"]
           [[Some "2"; Some "SKU2"; Some "Widget B"]] 0
           eq_refl eq_refl eq_refl).
Defined.

(** A row without text is skipped by the scan. *)
Lemma recorrer_blank blank filas2 filas1 : forall productos current,
  existsb truthy blank = false ->
  recorrer (filas1 ++ blank :: filas2) productos current
  = recorrer (filas1 ++ filas2) productos current.
Proof.
  intros productos current Hb. revert productos current.
  induction filas1 as [|row filas1 IH]; intros productos current;
    cbn [app recorrer].
  - rewrite Hb. reflexivity.
  - destruct (negb (existsb truthy row)); [apply IH|].
    destruct (paso_fila row productos current) as [p1 c1].
    destruct (es_fin_tabla row); [reflexivity|apply IH].
Qed.

(** X4. A row without any truthy cell, wherever it stands in the grid,
    changes neither the frame nor the log of [procesar_tabla_productos]. *)
Theorem blank_rows_ignored (a : list (list cell)) (blank : list cell)
  (b : list (list cell)) (page_num : nat) :
  existsb truthy blank = false ->
  procesar_tabla_productos (a ++ blank :: b) page_num
  = procesar_tabla_productos (a ++ b) page_num.
Proof.
  intros Hb. unfold procesar_tabla_productos.
  assert (H : match buscar_header (a ++ blank :: b) with
              | Some filas => productos_de filas
              | None => []
              end
              = match buscar_header (a ++ b) with
                | Some filas => productos_de filas
                | None => []
                end).
  { induction a as [|row a IH]; cbn [app buscar_header].
    - rewrite (blank_no_header _ Hb). reflexivity.
    - destruct (es_header row); [|exact IH].
      unfold productos_de. rewrite (recorrer_blank blank b a [] None Hb).
      reflexivity. }
  destruct (buscar_header (a ++ blank :: b)) as [f1|] eqn:E1,
           (buscar_header (a ++ b)) as [f2|] eqn:E2.
  - rewrite H. reflexivity.
  - exfalso. revert E1 E2. clear H.
    induction a as [|row a IH]; cbn [app buscar_header].
    + rewrite (blank_no_header _ Hb). congruence.
    + destruct (es_header row); [discriminate|exact IH].
  - exfalso. revert E1 E2. clear H.
    induction a as [|row a IH]; cbn [app buscar_header].
    + rewrite (blank_no_header _ Hb). congruence.
    + destruct (es_header row); [discriminate|exact IH].
  - reflexivity.
Qed.

Lemma blank_rows_ignored_witness :
  procesar_tabla_productos
    [[Some "Itm"]; [None; Some ""; None];
     [Some "1"; Some "SKU1"; Some "Widget A"]] 0
  = procesar_tabla_productos
      [[Some "Itm"]; [Some "1"; Some "SKU1"; Some "Widget A"]] 0.
Proof.
  exact (blank_rows_ignored [[Some "Itm"]] [None; Some ""; None]
           [[Some "1"; Some "SKU1"; Some "Widget A"]] 0 eq_refl).
Defined.






(** *** Item rows and rows that end the table *)

Lemma isspace_upper c : isspace (upper_char c) = isspace c.
Proof.
  destruct c as [[] [] [] [] [] [] [] []]; reflexivity.
Qed.

Lemma lstrip_upper s : lstrip (upper s) = upper (lstrip s).
Proof.
  induction s as [|c s IH]; [reflexivity|].
  cbn [upper map_string lstrip]. fold (upper s). rewrite isspace_upper.
  destruct (isspace c); [exact IH|reflexivity].
Qed.

Lemma rstrip_upper s : rstrip (upper s) = upper (rstrip s).
Proof.
  induction s as [|c s IH]; [reflexivity|].
  cbn [upper map_string rstrip]. fold (upper s). rewrite IH, isspace_upper.
  destruct (rstrip s); cbn [upper map_string]; [|reflexivity].
  destruct (isspace c); reflexivity.
Qed.

Lemma strip_upper s : strip (upper s) = upper (strip s).
Proof. unfold strip. rewrite lstrip_upper, rstrip_upper. reflexivity. Qed.

Lemma upper_digit c : is_digit c = true -> upper_char c = c.
Proof.
  destruct c as [[] [] [] [] [] [] [] []]; try discriminate; reflexivity.
Qed.

Lemma upper_digits s : all_digits s = true -> upper s = s.
Proof.
  induction s as [|c s IH]; [reflexivity|]. cbn [all_digits upper map_string].
  intros H. apply andb_prop in H. destruct H as [H1 H2].
  fold (upper s). rewrite (upper_digit _ H1), (IH H2). reflexivity.
Qed.

(** A word that starts with a letter is not found in a number. *)
Lemma contains_digits k kw s :
  is_digit k = false -> all_digits s = true -> contains (String k kw) s = false.
Proof.
  intros Hk. induction s as [|c s IH]; [reflexivity|].
  cbn [all_digits]. intros H. apply andb_prop in H. destruct H as [H1 H2].
  cbn [contains prefix].
  destruct (ascii_dec k c) as [->|Hne]; [congruence|].
  rewrite (IH H2). reflexivity.
Qed.

(** X6. A row that opens an item never ends the table: its first cell is
    a run of digits, which holds none of the footer keywords. *)
Theorem item_row_never_ends_table (row : list cell) :
  es_fila_producto row = true -> es_fin_tabla row = false.
Proof.
  unfold es_fila_producto, itm_de, texto_celda, es_fin_tabla.
  intros H. apply andb_prop in H. destruct H as [H _].
  destruct (present row 0); [|discriminate].
  rewrite strip_upper.
  assert (Hd : all_digits (strip (at_ row 0)) = true).
  { unfold isdigit in H. destruct (strip (at_ row 0)); [discriminate|exact H]. }
  rewrite (upper_digits _ Hd).
  unfold palabras_fin. cbn [existsb].
  rewrite !contains_digits by (reflexivity || exact Hd). reflexivity.
Qed.

Lemma item_row_never_ends_table_witness :
  es_fin_tabla [Some " 12 "; Some "SKU1"] = false.
Proof. exact (item_row_never_ends_table [Some " 12 "; Some "SKU1"] eq_refl). Defined.

(** *** Descriptions on several rows *)



(** ** The document driver *)

Lemma ensamblar_columns df d n f t : columns (ensamblar df d n f t) = columnas_orden.
Proof. reflexivity. Qed.

(** A page gives no frame at all or a frame of records. *)
Lemma procesar_pagina_forma (pdf_page : pagina) (page_num : nat) :
  snd (procesar_pagina pdf_page page_num) = empty_frame \/
  exists d n f t p ps,
    snd (procesar_pagina pdf_page page_num)
    = mkDF columnas_orden
        (map (fun q => fila_orden d n f t (fila_derivada q)) (p :: ps)).
Proof.
  unfold procesar_pagina.
  destruct (extract_text pdf_page) as [[|a s]|]; [left; reflexivity| |left; reflexivity].
  destruct (tabla_cruda_de pdf_page page_num) as [ev1 tc].
  destruct (extraer_numero_y_fecha (String a s)) as [n f].
  pose proof (procesar_tabla_forma tc page_num) as Hf. cbv zeta in Hf.
  destruct (procesar_tabla_productos tc page_num) as [ev2 df].
  cbn [snd] in Hf |- *.
  destruct (df_empty df) eqn:E; [left; reflexivity|].
  destruct (Hf eq_refl) as [ps ->]. right.
  destruct ps as [|p ps]; [discriminate|].
  exists (extraer_datos_generales tc (String a s)), n, f,
    (_extraer_totales_del_texto (String a s)), p, ps.
  cbn [snd].
  rewrite <- (ensamblar_rows (p :: ps)).
  destruct (ensamblar _ _ _ _ _) as [cs rs] eqn:Ee.
  pose proof (ensamblar_columns (mkDF columnas_tabla (map fila_derivada (p :: ps)))
                (extraer_datos_generales tc (String a s)) n f
                (_extraer_totales_del_texto (String a s))) as Hc.
  rewrite Ee in Hc. cbn [columns rows] in *. subst cs. reflexivity.
Qed.

Lemma get_todas (r : list value) :
  List.length r = 21%nat -> map (get columnas_orden r) columnas_orden = r.
Proof.
  intros H.
  repeat (destruct r as [|? r]; simpl in H; try lia).
  reflexivity.
Qed.

Lemma fila_orden_length d n f t p :
  List.length (fila_orden d n f t (fila_derivada p)) = 21%nat.
Proof. reflexivity. Qed.

Lemma union_columnas_orden :
  union_columnas [] columnas_orden = columnas_orden /\
  union_columnas columnas_orden columnas_orden = columnas_orden.
Proof. split; reflexivity. Qed.

(** Joining frames of records puts their rows one after the other. *)
Lemma concat_registros (frames : list DataFrame) :
  frames <> [] ->
  Forall (fun df => columns df = columnas_orden /\
                    Forall (fun r => List.length r = 21%nat) (rows df)) frames ->
  concat frames = mkDF columnas_orden (flat_map rows frames).
Proof.
  intros Hne H. unfold concat.
  assert (Hc : fold_left (fun seen df => union_columnas seen (columns df)) frames []
               = columnas_orden).
  { destruct frames as [|df frames]; [congruence|].
    inversion H as [|? ? [Hd _] Hrest]; subst. cbn [fold_left]. rewrite Hd.
    rewrite (proj1 union_columnas_orden).
    clear -Hrest. induction Hrest as [|df' frames [Hd' _] _ IH]; [reflexivity|].
    cbn [fold_left]. rewrite Hd', (proj2 union_columnas_orden). exact IH. }
  rewrite Hc. f_equal. clear Hc Hne.
  induction H as [|df frames [Hd Hr] _ IH]; [reflexivity|].
  cbn [flat_map]. rewrite IH. f_equal. rewrite Hd.
  clear -Hr. induction Hr as [|r rs Hlen _ IH]; [reflexivity|].
  cbn [map]. rewrite (get_todas r Hlen), IH. reflexivity.
Qed.

Lemma procesar_pagina_registros (pdf_page : pagina) (page_num : nat) :
  let df := snd (procesar_pagina pdf_page page_num) in
  (df_empty df = true /\ rows df = []) \/
  (df_empty df = false /\ columns df = columnas_orden /\
   Forall (fun r => List.length r = 21%nat) (rows df)).
Proof.
  intros df. subst df.
  destruct (procesar_pagina_forma pdf_page page_num)
    as [->|(d & n & f & t & p & ps & ->)].
  - left. split; reflexivity.
  - right. split; [reflexivity|]. split; [reflexivity|].
    cbn [rows]. apply Forall_forall. intros r Hr.
    apply in_map_iff in Hr. destruct Hr as (q & <- & _). apply fila_orden_length.
Qed.

Lemma procesar_paginas_registros pages : forall i,
  Forall (fun df => columns df = columnas_orden /\
                    Forall (fun r => List.length r = 21%nat) (rows df))
    (snd (procesar_paginas i pages)) /\
  flat_map rows (snd (procesar_paginas i pages)) = filas_de_paginas i pages.
Proof.
  induction pages as [|p pages IH]; intros i; cbn [procesar_paginas filas_de_paginas].
  - split; [constructor|reflexivity].
  - pose proof (procesar_pagina_registros p i) as Hp. cbv zeta in Hp.
    destruct (procesar_pagina p i) as [ev df]. cbn [snd] in Hp |- *.
    destruct (IH (S i)) as [IH1 IH2].
    destruct (procesar_paginas (S i) pages) as [evs dfs]. cbn [snd] in *.
    destruct Hp as [[-> ->]|(-> & Hc & Hr)].
    + split; [exact IH1|exact IH2].
    + split; [constructor; [split; assumption|exact IH1]|].
      cbn [flat_map]. rewrite IH2. reflexivity.
Qed.

Lemma procesar_pdf_registros (pages : list pagina) :
  let df := snd (procesar_pdf (Some pages)) in
  rows df = filas_de_paginas 0 pages /\
  Forall (fun r => List.length r = 21%nat) (rows df) /\
  (df = empty_frame \/ columns df = columnas_orden).
Proof.
  intros df. subst df. unfold procesar_pdf.
  destruct pages as [|p0 pages0]; [repeat split; auto|].
  set (pages := p0 :: pages0).
  destruct (procesar_paginas_registros pages 0) as [H1 H2].
  destruct (procesar_paginas 0 pages) as [evs dfs]. cbn [snd] in *.
  destruct dfs as [|d0 dfs].
  - cbn [snd rows empty_frame]. cbn [flat_map] in H2. rewrite <- H2.
    repeat split; auto.
  - cbn [snd]. rewrite (concat_registros (d0 :: dfs)) by (congruence || exact H1).
    cbn [rows columns]. split; [exact H2|]. split; [|right; reflexivity].
    clear -H1. induction H1 as [|df dfs' [_ Hr] _ IH]; [constructor|].
    cbn [flat_map]. apply Forall_app. split; assumption.
Qed.

(** X8. The frame that [procesar_pdf] returns holds the records of the
    pages in page order; every record has the 21 cells of the order
    schema, and the frame is the empty frame or has exactly the columns
    of that schema. *)
Theorem procesar_pdf_concatenates_pages (pages : list pagina) :
  let df := snd (procesar_pdf (Some pages)) in
  rows df = filas_de_paginas 0 pages /\
  Forall (fun r => List.length r = 21%nat) (rows df) /\
  (df = empty_frame \/ columns df = columnas_orden).
Proof. exact (procesar_pdf_registros pages). Qed.

Lemma procesar_pdf_errores (pages : list pagina) :
  let evs := fst (procesar_pdf (Some pages)) in
  let df := snd (procesar_pdf (Some pages)) in
  (filas_de_paginas 0 pages = [] ->
   df = empty_frame /\ existsb es_error_de_documento evs = true) /\
  (filas_de_paginas 0 pages <> [] ->
   df_empty df = false /\ existsb es_error_de_documento evs = false).
Proof.
  intros evs df. subst evs df. unfold procesar_pdf.
  destruct pages as [|p0 pages0].
  { split; [intros _; split; reflexivity|intros H; elim H; reflexivity]. }
  set (pages := p0 :: pages0).
  destruct (procesar_paginas_registros pages 0) as [H1 H2].
  assert (Hne : Forall (fun d => df_empty d = false) (snd (procesar_paginas 0 pages))).
  { clear. generalize 0%nat. induction pages as [|p pages IH]; intros i;
      cbn [procesar_paginas]; [constructor|].
    specialize (IH (S i)).
    destruct (procesar_pagina p i) as [ev d].
    destruct (procesar_paginas (S i) pages) as [evs dfs]. cbn [snd] in *.
    destruct (df_empty d) eqn:E; [exact IH|constructor; assumption]. }
  assert (Hev : forall l, existsb es_error_de_documento (map EnPagina l) = false).
  { induction l; [reflexivity|exact IHl]. }
  destruct (procesar_paginas 0 pages) as [evs dfs]. cbn [snd] in *.
  rewrite <- H2. destruct dfs as [|d0 dfs]; cbn [fst snd].
  - split; [|intros H; elim H; reflexivity].
    intros _. split; [reflexivity|].
    rewrite existsb_app, Hev. reflexivity.
  - inversion Hne as [|? ? Hd0 _]; subst. inversion H1 as [|? ? [Hc0 _] _]; subst.
    assert (Hrows : rows d0 <> []).
    { intros E. unfold df_empty in Hd0. rewrite E in Hd0.
      destruct (columns d0); discriminate. }
    split.
    + intros E. cbn [flat_map] in E. apply app_eq_nil in E. tauto.
    + intros _. split; [|apply Hev].
      rewrite (concat_registros (d0 :: dfs)) by (congruence || exact H1).
      unfold df_empty. cbn [columns rows flat_map].
      destruct (rows d0); [congruence|reflexivity].
Qed.

(** X9. [procesar_pdf] logs a document-level error exactly when no page
    yields a record, and then returns the empty frame; otherwise the
    frame is not empty and no document-level error is logged. *)
Theorem procesar_pdf_error_iff_no_records (pages : list pagina) :
  let evs := fst (procesar_pdf (Some pages)) in
  let df := snd (procesar_pdf (Some pages)) in
  match filas_de_paginas 0 pages with
  | [] => df = empty_frame /\ existsb es_error_de_documento evs = true
  | _ :: _ => df_empty df = false /\ existsb es_error_de_documento evs = false
  end.
Proof.
  intros evs df. destruct (procesar_pdf_errores pages) as [H1 H2].
  destruct (filas_de_paginas 0 pages); [apply H1; reflexivity|apply H2; discriminate].
Qed.

(** ** Looking an order up in the sheet *)

Lemma lstrip_idem s : lstrip (lstrip s) = lstrip s.
Proof.
  induction s as [|c s IH]; [reflexivity|]. cbn [lstrip].
  destruct (isspace c) eqn:E; [exact IH|]. cbn [lstrip]. rewrite E. reflexivity.
Qed.

Lemma rstrip_cons c s :
  rstrip (String c s)
  = match rstrip s with
    | EmptyString => if isspace c then EmptyString else String c EmptyString
    | r => String c r
    end.
Proof. reflexivity. Qed.

Lemma rstrip_idem s : rstrip (rstrip s) = rstrip s.
Proof.
  induction s as [|c s IH]; [reflexivity|]. rewrite rstrip_cons.
  destruct (rstrip s) as [|d r] eqn:E.
  - destruct (isspace c) eqn:Ec; [reflexivity|].
    rewrite rstrip_cons. cbn [rstrip]. rewrite Ec. reflexivity.
  - rewrite rstrip_cons, IH. reflexivity.
Qed.

(** Trimming on the right leaves the first character in place. *)
Lemma lstrip_rstrip s : lstrip (rstrip (lstrip s)) = rstrip (lstrip s).
Proof.
  induction s as [|c s IH]; [reflexivity|]. cbn [lstrip].
  destruct (isspace c) eqn:E; [exact IH|].
  cbn [rstrip]. destruct (rstrip s); [rewrite E|]; cbn [lstrip]; rewrite E; reflexivity.
Qed.

Lemma strip_idem s : strip (strip s) = strip s.
Proof. unfold strip. rewrite lstrip_rstrip, rstrip_idem. reflexivity. Qed.

Lemma buscar_fila_some i j n filas row :
  buscar_fila i j n filas = Some row ->
  In row filas /\ (Nat.max i j < List.length row)%nat /\
  upper (strip (nth i row "")) = n.
Proof.
  induction filas as [|r filas IH]; cbn [buscar_fila]; [discriminate|].
  destruct ((Nat.max i j <? List.length r)%nat
            && String.eqb (upper (strip (nth i r ""))) n) eqn:E.
  - intros [= <-]. apply andb_prop in E. destruct E as [E1 E2].
    apply Nat.ltb_lt in E1. apply String.eqb_eq in E2.
    split; [left; reflexivity|]. split; assumption.
  - intros H. destruct (IH H) as (H1 & H2). split; [right; exact H1|exact H2].
Qed.

(** X10. When [obtener_hash_orden_en_sheet] finds a hash for an order
    number, [ya_existe_en_sheet] finds that order on the same sheet, and
    the hash is a non-empty text without surrounding whitespace. *)
Theorem stored_hash_implies_order_exists
  (valores : option (list (list string))) (numero_orden h : string) :
  obtener_hash_orden_en_sheet valores numero_orden = Some h ->
  ya_existe_en_sheet valores numero_orden = true /\ h <> "" /\ strip h = h.
Proof.
  unfold obtener_hash_orden_en_sheet, ya_existe_en_sheet.
  destruct valores as [[|headers [|f0 filas]]|]; try discriminate.
  destruct (col_index "Numero Orden" headers) as [i|]; [|discriminate].
  destruct (col_index "Hash_OC" headers) as [j|]; [|discriminate].
  destruct (buscar_fila i j (upper (strip numero_orden)) (f0 :: filas))
    as [row|] eqn:E; [|discriminate].
  destruct (nonempty (strip (nth j row ""))) eqn:En; [|discriminate].
  intros [= <-].
  apply buscar_fila_some in E. destruct E as (Hin & Hlen & Heq).
  split; [|split; [apply nonempty_ne; exact En|apply strip_idem]].
  apply existsb_exists. exists row. split; [exact Hin|].
  apply andb_true_intro. split; [apply Nat.ltb_lt; lia|].
  apply String.eqb_eq. exact Heq.
Qed.

Lemma stored_hash_implies_order_exists_witness :
  ya_existe_en_sheet
    (Some [["Numero Orden"; "Total"; "Hash_OC"];
           ["123"; "100.0"; " 29c8d52ab618 "]]) " 123" = true /\
  "29c8d52ab618" <> "" /\ strip "29c8d52ab618" = "29c8d52ab618".
Proof.
  exact (stored_hash_implies_order_exists
           (Some [["Numero Orden"; "Total"; "Hash_OC"];
                  ["123"; "100.0"; " 29c8d52ab618 "]]) " 123" "29c8d52ab618"
           eq_refl).
Defined.

Lemma buscar_fila_app i j n filas extra row :
  buscar_fila i j n filas = Some row ->
  buscar_fila i j n (filas ++ extra) = Some row.
Proof.
  induction filas as [|r filas IH]; cbn [buscar_fila app]; [discriminate|].
  destruct ((Nat.max i j <? List.length r)%nat
            && String.eqb (upper (strip (nth i r ""))) n); [auto|exact IH].
Qed.

(** X11. The hash of an order is read from the first row that carries
    its number: rows appended to the sheet never change a hash that was
    found. *)
Theorem first_row_of_an_order_wins
  (headers : list string) (filas extra : list (list string))
  (numero_orden h : string) :
  obtener_hash_orden_en_sheet (Some (headers :: filas)) numero_orden = Some h ->
  obtener_hash_orden_en_sheet (Some (headers :: filas ++ extra)) numero_orden
  = Some h.
Proof.
  unfold obtener_hash_orden_en_sheet.
  destruct filas as [|f0 filas]; [discriminate|]. cbn [app].
  destruct (col_index "Numero Orden" headers) as [i|]; [|discriminate].
  destruct (col_index "Hash_OC" headers) as [j|]; [|discriminate].
  destruct (buscar_fila i j (upper (strip numero_orden)) (f0 :: filas))
    as [row|] eqn:E; [|discriminate].
  change (f0 :: filas ++ extra)%list with ((f0 :: filas) ++ extra)%list.
  rewrite (buscar_fila_app _ _ _ _ extra _ E). auto.
Qed.

Lemma first_row_of_an_order_wins_witness :
  obtener_hash_orden_en_sheet
    (Some (["Numero Orden"; "Hash_OC"]
           :: [["123"; "aaaaaaaaaaaa"]] ++ [["123"; "bbbbbbbbbbbb"]])) "123"
  = Some "aaaaaaaaaaaa".
Proof.
  exact (first_row_of_an_order_wins ["Numero Orden"; "Hash_OC"]
           [["123"; "aaaaaaaaaaaa"]] [["123"; "bbbbbbbbbbbb"]] "123"
           "aaaaaaaaaaaa" eq_refl).
Defined.

Lemma buscar_fila_none i j n filas :
  existsb (fun row => (i <? List.length row)%nat
                      && String.eqb (upper (strip (nth i row ""))) n) filas
  = false ->
  buscar_fila i j n filas = None.
Proof.
  induction filas as [|r filas IH]; cbn [existsb buscar_fila]; [reflexivity|].
  intros H. apply orb_false_elim in H. destruct H as [H1 H2].
  rewrite (IH H2).
  destruct (String.eqb (upper (strip (nth i r ""))) n).
  - rewrite andb_true_r in H1 |- *. apply Nat.ltb_ge in H1.
    destruct (Nat.ltb_spec (Nat.max i j) (List.length r)); [lia|reflexivity].
  - rewrite andb_false_r. reflexivity.
Qed.

(** X12. Once a row that is long enough and carries the order number (up
    to case and surrounding whitespace) is appended to a sheet where the
    order was not found, the order is found, and its hash is the trimmed
    Hash_OC cell of that row, or none when that cell is blank. *)
Theorem appended_order_is_found
  (headers : list string) (filas : list (list string)) (row : list string)
  (numero_orden : string) (i j : nat) :
  col_index "Numero Orden" headers = Some i ->
  col_index "Hash_OC" headers = Some j ->
  (Nat.max i j < List.length row)%nat ->
  upper (strip (nth i row "")) = upper (strip numero_orden) ->
  ya_existe_en_sheet (Some (headers :: filas)) numero_orden = false ->
  ya_existe_en_sheet (Some (headers :: filas ++ [row])) numero_orden = true /\
  obtener_hash_orden_en_sheet (Some (headers :: filas ++ [row])) numero_orden
  = (if nonempty (strip (nth j row "")) then Some (strip (nth j row ""))
     else None).
Proof.
  intros Hi Hj Hlen Hn Hno.
  assert (Hfilas : existsb (fun r => (i <? List.length r)%nat
                      && String.eqb (upper (strip (nth i r "")))
                                    (upper (strip numero_orden))) filas = false).
  { unfold ya_existe_en_sheet in Hno. rewrite Hi in Hno.
    destruct filas as [|f0 filas]; [reflexivity|exact Hno]. }
  assert (Hrow : ((i <? List.length row)%nat
                  && String.eqb (upper (strip (nth i row "")))
                                (upper (strip numero_orden))) = true).
  { apply andb_true_intro. split; [apply Nat.ltb_lt; lia|].
    apply String.eqb_eq. exact Hn. }
  assert (Hrow2 : ((Nat.max i j <? List.length row)%nat
                  && String.eqb (upper (strip (nth i row "")))
                                (upper (strip numero_orden))) = true).
  { apply andb_true_intro. split; [apply Nat.ltb_lt; lia|].
    apply String.eqb_eq. exact Hn. }
  unfold ya_existe_en_sheet, obtener_hash_orden_en_sheet. rewrite Hi, Hj.
  destruct (filas ++ [row])%list as [|g0 gs] eqn:E;
    [destruct filas; discriminate|].
  rewrite <- E. split.
  - rewrite existsb_app. cbn [existsb]. rewrite Hrow, Hfilas. reflexivity.
  - assert (Hb : buscar_fila i j (upper (strip numero_orden)) (filas ++ [row])
                 = Some row).
    { pose proof (buscar_fila_none i j _ _ Hfilas) as Hnone.
      clear -Hnone Hrow2. induction filas as [|r filas IH]; cbn [app buscar_fila].
      - rewrite Hrow2. reflexivity.
      - cbn [buscar_fila] in Hnone.
        destruct ((Nat.max i j <? List.length r)%nat
                  && String.eqb (upper (strip (nth i r "")))
                                (upper (strip numero_orden)));
          [discriminate|apply IH; exact Hnone]. }
    rewrite Hb. reflexivity.
Qed.

Lemma appended_order_is_found_witness :
  ya_existe_en_sheet
    (Some (["Numero Orden"; "Hash_OC"]
           :: [["77"; "aaaaaaaaaaaa"]] ++ [[" oc-9 "; "bbbbbbbbbbbb"]])) "OC-9"
  = true /\
  obtener_hash_orden_en_sheet
    (Some (["Numero Orden"; "Hash_OC"]
           :: [["77"; "aaaaaaaaaaaa"]] ++ [[" oc-9 "; "bbbbbbbbbbbb"]])) "OC-9"
  = Some "bbbbbbbbbbbb".
Proof.
  exact (appended_order_is_found ["Numero Orden"; "Hash_OC"]
           [["77"; "aaaaaaaaaaaa"]] [" oc-9 "; "bbbbbbbbbbbb"] "OC-9" 0 1
           eq_refl eq_refl (le_n 2) eq_refl eq_refl).
Defined.

(** ** The patterns *)

Lemma re_match_sound {A : Type} (r : re) :
  forall s (k : string -> option A) x,
    re_match r s k = Some x ->
    exists w s', s = w ++ s' /\ matches r w /\ k s' = Some x.
Proof.
  induction r as [p|a IHa b IHb|a IHa|a IHa]; intros s k x H; cbn [re_match] in H.
  - destruct s as [|c s]; [discriminate|].
    destruct (p c) eqn:E; [|discriminate].
    exists (String c ""), s. repeat split; [constructor; exact E|exact H].
  - apply IHa in H. destruct H as (u & s1 & -> & Hu & H).
    apply IHb in H. destruct H as (v & s2 & -> & Hv & H).
    exists (u ++ v), s2. rewrite append_assoc.
    repeat split; [constructor; assumption|exact H].
  - destruct (re_match a s k) as [y|] eqn:E.
    + injection H as ->. apply IHa in E. destruct E as (w & s' & -> & Hw & E).
      exists w, s'. repeat split; [apply m_opt_some; exact Hw|exact E].
    + exists "", s. repeat split; [constructor|exact H].
  - revert H. generalize (String.length s) at 1. intros n. revert s.
    induction n as [|n IHn]; intros s H.
    + exists "", s. repeat split; [constructor|exact H].
    + match type of H with
      | match ?m with _ => _ end = _ => destruct m as [y|] eqn:E
      end.
      * injection H as ->. apply IHa in E. destruct E as (u & s1 & -> & Hu & E).
        destruct (String.length s1 <? String.length (u ++ s1))%nat; [|discriminate].
        apply IHn in E. destruct E as (v & s2 & -> & Hv & E).
        exists (u ++ v), s2. rewrite append_assoc.
        repeat split; [apply m_star_cons; assumption|exact E].
      * exists "", s. repeat split; [constructor|exact H].
Qed.

Lemma take_app w s : take (String.length (w ++ s) - String.length s) (w ++ s) = w.
Proof.
  rewrite append_length.
  replace (String.length w + String.length s - String.length s)%nat
    with (String.length w) by lia.
  induction w as [|c w IH]; cbn; [destruct s; reflexivity|]. rewrite IH. reflexivity.
Qed.

(** What [re_search] returns is a text of the group. *)
Lemma re_search_sound before_ group s g :
  re_search before_ group s = Some g -> matches group g.
Proof.
  induction s as [|c s IH]; cbn [re_search];
    match goal with
    | |- match ?m with _ => _ end = _ -> _ => destruct m as [y|] eqn:E
    end; try discriminate; try exact IH.
  all: intros [= <-];
    apply re_match_sound in E; destruct E as (u & s1 & _ & _ & E);
    apply re_match_sound in E; destruct E as (w & s2 & -> & Hw & E);
    injection E as <-; rewrite take_app; exact Hw.
Qed.

Lemma matches_chr p w : matches (Chr p) w -> exists c, w = String c "" /\ p c = true.
Proof. inversion 1; subst. eexists; split; [reflexivity|assumption]. Qed.

Lemma matches_seq_chr p b w :
  matches (Seq (Chr p) b) w ->
  exists c w', w = String c w' /\ p c = true /\ matches b w'.
Proof.
  inversion 1 as [|? ? u v Hu Hv| | | |]; subst.
  apply matches_chr in Hu. destruct Hu as (c & -> & Hc).
  exists c, v. repeat split; assumption.
Qed.

Lemma matches_star_digits w : matches (Star dig) w -> all_digits w = true.
Proof.
  remember (Star dig) as r eqn:Er. induction 1 as [| | | | |a u v Hu _ Hv IH];
    try discriminate; [reflexivity|].
  injection Er as ->. apply matches_chr in Hu. destruct Hu as (c & -> & Hc).
  cbn. rewrite Hc. apply IH. reflexivity.
Qed.

Lemma matches_plus_digits w : matches (plus dig) w -> isdigit w = true.
Proof.
  unfold plus. intros H. apply matches_seq_chr in H.
  destruct H as (c & w' & -> & Hc & Hw). cbn. rewrite Hc.
  apply matches_star_digits. exact Hw.
Qed.

Lemma matches_fecha w : matches re_ddmmyyyy w -> es_fecha w = true.
Proof.
  unfold re_ddmmyyyy, seqs. intros H.
  repeat (apply matches_seq_chr in H;
          let c := fresh "c" in let w' := fresh "w" in let Hc := fresh "Hc" in
          destruct H as (c & w' & -> & Hc & H)).
  apply matches_chr in H. destruct H as (cz & -> & Hcz).
  unfold es_fecha, coincide, es_barra, dig, chr in *.
  repeat match goal with H : _ = true |- _ => rewrite H; clear H end.
  reflexivity.
Qed.

(** X13. The order number that [extraer_numero_y_fecha] returns is a
    non-empty run of digits, and the date has the shape dd/dd/dddd. *)
Theorem order_number_and_date_shapes (texto : string) :
  match fst (extraer_numero_y_fecha texto) with
  | Some num_orden => isdigit num_orden = true
  | None => True
  end /\
  match snd (extraer_numero_y_fecha texto) with
  | Some fecha => es_fecha fecha = true
  | None => True
  end.
Proof.
  unfold extraer_numero_y_fecha. cbn [fst snd]. split.
  - destruct (re_search re_numero_orden (plus dig) texto) as [n|] eqn:E; [|exact I].
    apply matches_plus_digits. eapply re_search_sound. exact E.
  - destruct (re_search re_fecha re_ddmmyyyy texto) as [f|] eqn:E; [|exact I].
    apply matches_fecha. eapply re_search_sound. exact E.
Qed.

(** ** The amounts of the page text *)
























(** ** Whitespace around the cells *)

Lemma mismo_texto_refl v : mismo_texto v v.
Proof. destruct v; reflexivity. Qed.







Section MismoTexto.

Variables df df' : DataFrame.
Hypothesis Hcols : columns df' = columns df.
Hypothesis Hrows : Forall2 (Forall2 mismo_texto) (rows df) (rows df').









End MismoTexto.



(** ** The formatter on the records of the extractor *)

Lemma columna_de_claves :
  Forall (fun kc => columna_de (normaliza (fst kc)) columnas_orden = Some (snd kc))
    claves_meta.
Proof. repeat constructor. Qed.

(** X18. On every non-empty frame that [procesar_pdf] returns, [_extrae]
    resolves each metadata key of the formatter to the column of that
    name and returns the text of its first cell, or the default when the
    cell is missing or blank; the substring match never picks another
    column. *)
Theorem formatter_reads_named_columns (pdf : option (list pagina))
  (default : string) :
  let df := snd (procesar_pdf pdf) in
  df_empty df = false ->
  Forall (fun kc =>
            _extrae df (fst kc) default =
            Some (texto_o default (iloc0 df (snd kc))))
    claves_meta.
Proof.
  intros df He. subst df. destruct pdf as [pages|]; [|discriminate He].
  destruct (procesar_pdf_registros pages) as (_ & _ & [E|Hc]).
  { rewrite E in He. discriminate He. }
  destruct (snd (procesar_pdf (Some pages))) as [cols rs]. cbn [columns] in Hc.
  subst cols. destruct rs as [|r rs]; [discriminate He|].
  eapply Forall_impl; [|exact columna_de_claves].
  intros [k c] H. unfold _extrae, iloc0. cbn [columns rows fst snd] in *.
  rewrite H. reflexivity.
Qed.

Lemma formatter_reads_named_columns_witness :
  let pdf :=
    Some [mkPagina (Some "Subtotal 45.00 Impto. 2.50")
            (Some [[Some "Itm"];
                   [Some "1"; Some "SKU1"; Some "Widget A"; None; None;
                    Some "10"; Some "UN"; None; Some "5.00"; None;
                    Some "10"; Some "18"; None; Some "45.00"]]) []] in
  let df := snd (procesar_pdf pdf) in
  Forall (fun kc =>
            _extrae df (fst kc) "N/A" = Some (texto_o "N/A" (iloc0 df (snd kc))))
    claves_meta.
Proof.
  intros pdf. apply (formatter_reads_named_columns pdf "N/A").
  vm_compute. reflexivity.
Defined.
